(** * GroupMe sales bot: parser, leaderboard reconciler, recap and reset

    A shallow embedding of the two modules of the bot:
    - [Sheets] is [sheets.js]: [updateLeaderboardAndGetStandings],
      [getDailySummary] and [resetTodayAndMaybeWeek];
    - [Bot] is [index.js]: [parseSalesMessage] and the webhook handler.

    [JS] holds the fragment of the JavaScript runtime the two modules use;
    [History] holds the two earlier revisions of the parser that index.js
    still carries, and [Server] the handling of requests one after the
    other.

    Conventions of the embedding:
    - a JavaScript string is the list of its UTF-16 code units;
    - a number is an integer or [NaN]; integers are unbounded, so the
      embedding is exact as long as every counter stays inside the range
      where a double represents integers exactly (below 2^53); every
      theorem that reads a printed number back, or that depends on a sum,
      carries that range as a hypothesis ([Range.safe], [Range.small]);
    - the spreadsheet is explicit state: a table is the list of its rows, a
      row the list of its cells, a missing trailing cell is a shorter row;
    - the clock is an argument ([nowIso], the text of
      [new Date().toISOString()]);
    - [String.prototype.toLowerCase] and [new Date(s).getDay()] belong to
      the host and are arguments of the functions that call them. *)

From Stdlib Require Import ZArith NArith Ascii String Decimal DecimalN DecimalPos.
From stdpp Require Import base list sorting.

Open Scope Z_scope.

(** ** The JavaScript fragment *)
Module JS.

(** A string: its UTF-16 code units. *)
Abbreviation jsstring := (list N).

(** Code unit of an ASCII character. *)
Definition ch (a : ascii) : N := N_of_ascii a.

(** Decodes the UTF-8 bytes of a literal into UTF-16 code units; only used
    to write string literals (an ill-formed sequence yields U+FFFD). *)
Fixpoint utf16_of_bytes (bs : list N) : jsstring :=
  let cont (b : N) := N.land b 63 in
  match bs with
  | [] => []
  | b0 :: r0 =>
    if (b0 <? 128)%N then b0 :: utf16_of_bytes r0
    else match r0 with
    | [] => [65533%N]
    | b1 :: r1 =>
      if (b0 <? 224)%N then
        (N.shiftl (N.land b0 31) 6 + cont b1)%N :: utf16_of_bytes r1
      else match r1 with
      | [] => [65533%N]
      | b2 :: r2 =>
        if (b0 <? 240)%N then
          (N.shiftl (N.land b0 15) 12 + N.shiftl (cont b1) 6 + cont b2)%N
            :: utf16_of_bytes r2
        else match r2 with
        | [] => [65533%N]
        | b3 :: r3 =>
          let cp := (N.shiftl (N.land b0 7) 18 + N.shiftl (cont b1) 12
                     + N.shiftl (cont b2) 6 + cont b3)%N in
          let v := (cp - 65536)%N in
          (55296 + N.shiftr v 10)%N :: (56320 + N.land v 1023)%N
            :: utf16_of_bytes r3
        end
      end
    end
  end.

Definition utf16 (s : string) : jsstring :=
  utf16_of_bytes (map N_of_ascii (list_ascii_of_string s)).

(** *** Numbers *)

(** A number of the code is a double.  [Num z] stands for the double of
    the integer [z]; it is that double, and [add] and [sub] are the code's
    [+] and [-], as long as the operands and the result are of magnitude
    below 2^53 ([Range.safe]).  Beyond that range a double rounds, and the
    definitions below say nothing of the code; the theorems assume the
    range wherever they depend on it. *)
Inductive num := Num (z : Z) | NaN.

Definition sub (a b : num) : num :=
  match a, b with Num x, Num y => Num (x - y) | _, _ => NaN end.

Definition add (a b : num) : num :=
  match a, b with Num x, Num y => Num (x + y) | _, _ => NaN end.

(** [a < b]; a comparison with [NaN] is false. *)
Definition lt (a b : num) : bool :=
  match a, b with Num x, Num y => x <? y | _, _ => false end.

(** [a === b] on numbers; [NaN] is equal to nothing. *)
Definition strict_eq (a b : num) : bool :=
  match a, b with Num x, Num y => x =? y | _, _ => false end.

Definition isNaN (a : num) : bool :=
  match a with NaN => true | Num _ => false end.

(** *** Characters *)

Definition is_digit (u : N) : bool := ((48 <=? u) && (u <=? 57))%N.

(** WhiteSpace and LineTerminator: the class [\s] and what [trim] strips. *)
Definition is_ws (u : N) : bool :=
  ((9 <=? u) && (u <=? 13) || (u =? 32) || (u =? 160) || (u =? 5760)
   || (8192 <=? u) && (u <=? 8202) || (u =? 8232) || (u =? 8233)
   || (u =? 8239) || (u =? 8287) || (u =? 12288) || (u =? 65279))%N.

Fixpoint takeWhile {A} (p : A -> bool) (l : list A) : list A :=
  match l with
  | [] => []
  | x :: r => if p x then x :: takeWhile p r else []
  end.

Fixpoint dropWhile {A} (p : A -> bool) (l : list A) : list A :=
  match l with
  | [] => []
  | x :: r => if p x then dropWhile p r else l
  end.

Definition str_eqb (s t : jsstring) : bool := bool_decide (s = t).

(** *** parseInt(s, 10) and Number.prototype.toString() *)

Definition digit_of_unit (u : N) (d : uint) : uint :=
  match (u - 48)%N with
  | 0%N => D0 d | 1%N => D1 d | 2%N => D2 d | 3%N => D3 d | 4%N => D4 d
  | 5%N => D5 d | 6%N => D6 d | 7%N => D7 d | 8%N => D8 d | _ => D9 d
  end.

(** The decimal numeral spelled by the leading digits of [s]. *)
Fixpoint digits_prefix (s : jsstring) : uint :=
  match s with
  | [] => Nil
  | u :: r => if is_digit u then digit_of_unit u (digits_prefix r) else Nil
  end.

(** [parseInt(s, 10)]: leading white space is skipped, one sign is read,
    then the longest run of decimal digits; [NaN] when that run is empty.
    The value is the code's when it is below 2^53 in magnitude; a longer
    run is rounded by the code (to [Infinity] from 309 digits on). *)
Definition parseInt (s : jsstring) : num :=
  let s1 := dropWhile is_ws s in
  let '(neg, s2) :=
    match s1 with
    | u :: r => if (u =? ch "-")%N then (true, r)
                else if (u =? ch "+")%N then (false, r)
                else (false, s1)
    | [] => (false, s1)
    end in
  match digits_prefix s2 with
  | Nil => NaN
  | d => let v := Z.of_N (N.of_uint d) in Num (if neg then - v else v)
  end.

Fixpoint units_of_uint (d : uint) : jsstring :=
  match d with
  | Nil => []
  | D0 d => 48%N :: units_of_uint d | D1 d => 49%N :: units_of_uint d
  | D2 d => 50%N :: units_of_uint d | D3 d => 51%N :: units_of_uint d
  | D4 d => 52%N :: units_of_uint d | D5 d => 53%N :: units_of_uint d
  | D6 d => 54%N :: units_of_uint d | D7 d => 55%N :: units_of_uint d
  | D8 d => 56%N :: units_of_uint d | D9 d => 57%N :: units_of_uint d
  end.

(** [n.toString()] for an integer or [NaN].  The plain decimal digits
    are what the code prints for an integer below 2^53 in magnitude; a
    double from 10^21 on is printed with an exponent (['1e+21']). *)
Definition toString (n : num) : jsstring :=
  match n with
  | NaN => utf16 "NaN"
  | Num Z0 => [48%N]
  | Num (Zpos p) => units_of_uint (Pos.to_uint p)
  | Num (Zneg p) => ch "-" :: units_of_uint (Pos.to_uint p)
  end.

(** *** String and array methods *)

Definition trim (s : jsstring) : jsstring :=
  rev (dropWhile is_ws (rev (dropWhile is_ws s))).

Definition starts_with (p : N -> bool) (s : jsstring) : bool :=
  match s with u :: _ => p u | [] => false end.

(** [s.split(/\s+/)]: the pieces between the maximal runs of white space;
    a run at either end leaves an empty piece there, and the empty string
    splits into one empty piece. *)
Fixpoint split_ws (s : jsstring) : list jsstring :=
  match s with
  | [] => [[]]
  | u :: r =>
    let rest := split_ws r in
    if is_ws u then
      if starts_with is_ws r then rest else [] :: rest
    else
      match rest with
      | t :: ts => (u :: t) :: ts
      | [] => [[u]]
      end
  end.

(** [s.split('T')[0]]: the text before the first [T]. *)
Definition before_T (s : jsstring) : jsstring :=
  takeWhile (fun u => negb (u =? ch "T")%N) s.

(** [a.slice(from, to)] for indices that are not negative. *)
Definition slice {A} (from to : nat) (l : list A) : list A :=
  take (to - from) (drop from l).

(** [a.join(' ')] *)
Fixpoint join_sp (l : list jsstring) : jsstring :=
  match l with
  | [] => []
  | [t] => t
  | t :: r => t ++ ch " " :: join_sp r
  end.

(** [a.findIndex(p)]; [None] stands for -1. *)
Fixpoint findIndex {A} (p : A -> bool) (l : list A) : option nat :=
  match l with
  | [] => None
  | x :: r => if p x then Some 0%nat else S <$> findIndex p r
  end.

(** [a.lastIndexOf(x)] on an array of strings; [None] stands for -1. *)
Fixpoint lastIndexOf (x : jsstring) (l : list jsstring) : option nat :=
  match l with
  | [] => None
  | y :: r =>
    match lastIndexOf x r with
    | Some i => Some (S i)
    | None => if str_eqb y x then Some 0%nat else None
    end
  end.

(** A string used as a condition: [undefined] and [''] are falsy. *)
Definition truthy (c : option jsstring) : bool :=
  match c with Some (_ :: _) => true | _ => false end.

(** [c || d] for a cell that may be missing. *)
Definition or_else (c : option jsstring) (d : jsstring) : jsstring :=
  match c with Some (u :: r) => u :: r | _ => d end.

(** [a.sort(cmp)]: the sort is stable, and [x] stays before [y] unless
    [cmp(x, y) > 0] (a [NaN] from the comparator counts as 0).  Insertion
    from the right end computes the stable order.  With a comparator that
    is not consistent (a [NaN] among the keys) the engine is free in the
    order it leaves; it still only permutes the array. *)
Fixpoint sort_insert {A} (cmp : A -> A -> num) (x : A) (l : list A) : list A :=
  match l with
  | [] => [x]
  | y :: r => if lt (Num 0) (cmp x y) then y :: sort_insert cmp x r else x :: l
  end.

Definition sort {A} (cmp : A -> A -> num) (l : list A) : list A :=
  foldr (sort_insert cmp) [] l.

(** *** The regular expressions of the parser *)

(** [/[+-]?\d+/.exec(t)[0]]: the leftmost match, which starts at the first
    digit of [t], or at a sign standing immediately before that digit, and
    runs to the end of the digits. *)
Fixpoint numberRegex_exec (t : jsstring) : option jsstring :=
  match t with
  | [] => None
  | u :: r =>
    if is_digit u then Some (u :: takeWhile is_digit r)
    else if ((u =? ch "+") || (u =? ch "-"))%N && starts_with is_digit r
      then Some (u :: takeWhile is_digit r)
    else numberRegex_exec r
  end.

Definition numberRegex_test (t : jsstring) : bool :=
  match numberRegex_exec t with Some _ => true | None => false end.

Definition one_or_two {A} (l : list A) : bool :=
  match l with [_] | [_; _] => true | _ => false end.

(** [/^\d{1,2}\/\d{1,2}$/.test(t)] *)
Definition dateRegex_test (t : jsstring) : bool :=
  one_or_two (takeWhile is_digit t) &&
  match dropWhile is_digit t with
  | u :: r => (u =? ch "/")%N && one_or_two r && forallb is_digit r
  | [] => false
  end.

(** [/^\d+([GMgm]|Mbps|mbps)?$/.test(t)] *)
Definition speedPattern_test (t : jsstring) : bool :=
  match takeWhile is_digit t with
  | [] => false
  | _ =>
    let suffix := dropWhile is_digit t in
    existsb (str_eqb suffix)
      [[]; utf16 "G"; utf16 "M"; utf16 "g"; utf16 "m"; utf16 "Mbps"; utf16 "mbps"]
  end.

End JS.

(** ** sheets.js *)
Module Sheets.
Import JS.

(** A row of a sheet: its cells from column A on. *)
Abbreviation row := (list jsstring).

(** The spreadsheet behind [values.get], [values.update] and
    [values.append]: the ranges [Leaderboard!A:F] and [SalesLog!A:H]. *)
Record Spreadsheet := {
  Leaderboard : list row;
  SalesLog : list row
}.

Record SaleDetails := {
  customerName : jsstring;
  installDate : jsstring;
  provider : jsstring;
  speed : jsstring;
  saleDate : jsstring;
  timestamp : jsstring
}.

Definition leaderboardHeader : row :=
  [utf16 "Rep"; utf16 "Today"; utf16 "Week"; utf16 "Month"; utf16 "Lifetime";
   utf16 "LastUpdate"].

(** [values = getRes.data.values || []], then the header is put in when the
    sheet is empty. *)
Definition withHeader (values : list row) : list row :=
  match values with
  | [] => [leaderboardHeader]
  | _ => values
  end.

Definition header (values : list row) : row :=
  default [] (head (withHeader values)).

(** [values.slice(1)] *)
Definition dataRows (values : list row) : list row :=
  drop 1 (withHeader values).

(** [parseInt(row[i] || '0', 10)] *)
Definition cellInt (r : row) (i : nat) : num :=
  parseInt (or_else (r !! i) (utf16 "0")).

Section Reconciler.
Variable toLowerCase : jsstring -> jsstring.

(** [r[0] && r[0].toLowerCase() === repName.toLowerCase()] *)
Definition isRep (repName : jsstring) (r : row) : bool :=
  match r !! 0%nat with
  | Some (u :: s) => str_eqb (toLowerCase (u :: s)) (toLowerCase repName)
  | _ => false
  end.

Definition newRepRow (repName : jsstring) (todayReported : num)
    (nowIso : jsstring) : row :=
  [repName; toString todayReported; toString todayReported;
   toString todayReported; toString todayReported; nowIso].

(** [prevLastUpdate ? prevLastUpdate.slice(0, 10) : null] *)
Definition prevDate (r : row) : option jsstring :=
  match or_else (r !! 5%nat) [] with
  | [] => None
  | prevLastUpdate => Some (take 10 prevLastUpdate)
  end.

(** The baseline [prevToday]: the stored Today, or 0 on a new day. *)
Definition prevToday (r : row) (currentDate : jsstring) : num :=
  let today := cellInt r 1 in
  if truthy (prevDate r)
     && negb (str_eqb (default [] (prevDate r)) currentDate)
  then Num 0 else today.

(** [delta], after the test [delta < 0]. *)
Definition saleDelta (todayReported prev : num) : num :=
  let delta := sub todayReported prev in
  if lt delta (Num 0) then todayReported else delta.

(** The row written at [rows[repIndex]].  [row[0]] is a string there, since
    [findIndex] chose the row. *)
Definition updatedRepRow (r : row) (todayReported : num)
    (currentDate nowIso : jsstring) : row :=
  let week := cellInt r 2 in
  let month := cellInt r 3 in
  let lifetime := cellInt r 4 in
  let delta := saleDelta todayReported (prevToday r currentDate) in
  [default [] (r !! 0%nat); toString todayReported; toString (add week delta);
   toString (add month delta); toString (add lifetime delta); nowIso].

(** [rows] after the branch on [repIndex], before the sort. *)
Definition reconciledRows (rows : list row) (repName : jsstring)
    (todayReported : num) (currentDate nowIso : jsstring) : list row :=
  match findIndex (isRep repName) rows with
  | None => rows ++ [newRepRow repName todayReported nowIso]
  | Some repIndex =>
    match rows !! repIndex with
    | Some r =>
      <[repIndex := updatedRepRow r todayReported currentDate nowIso]> rows
    | None => rows
    end
  end.

(** The comparator of the sort by Today, descending. *)
Definition byTodayDesc (a b : row) : num := sub (cellInt b 1) (cellInt a 1).

Definition saleLogRow (repName : jsstring) (todayReported : num)
    (d : SaleDetails) : row :=
  [timestamp d; repName; customerName d; saleDate d; installDate d;
   provider d; speed d; toString todayReported].

(** Returns the spreadsheet after the two writes and the [[Rep, Today]]
    pairs of the sorted rows. *)
Definition updateLeaderboardAndGetStandings (sheets : Spreadsheet)
    (repName : jsstring) (todayReported : num) (saleDetails : SaleDetails)
    (nowIso : jsstring)
    : Spreadsheet * list (option jsstring * option jsstring) :=
  let values := Leaderboard sheets in
  let rows :=
    sort byTodayDesc
      (reconciledRows (dataRows values) repName todayReported
         (saleDate saleDetails) nowIso) in
  ({| Leaderboard := header values :: rows;
      SalesLog := SalesLog sheets ++ [saleLogRow repName todayReported saleDetails] |},
   map (fun r : row => (r !! 0%nat, r !! 1%nat)) rows).

End Reconciler.

(** *** getDailySummary *)

(** The [Map] of counts: keys in insertion order. *)
Definition counts_get (m : list (jsstring * Z)) (k : jsstring) : option Z :=
  snd <$> find (fun e => str_eqb (fst e) k) m.

Fixpoint counts_set (m : list (jsstring * Z)) (k : jsstring) (v : Z)
    : list (jsstring * Z) :=
  match m with
  | [] => [(k, v)]
  | e :: r => if str_eqb (fst e) k then (k, v) :: r else e :: counts_set r k v
  end.

Record Summary := { perRep : list (jsstring * Z); total : Z }.

(** One turn of the loop over the rows of the log. *)
Definition tally (dateIso : jsstring) (acc : list (jsstring * Z) * Z) (r : row)
    : list (jsstring * Z) * Z :=
  let '(counts, total) := acc in
  let rep := or_else (r !! 1%nat) [] in
  let saleDate := or_else (r !! 3%nat) [] in
  if negb (truthy (Some rep)) || negb (truthy (Some saleDate)) then acc
  else if str_eqb saleDate dateIso then
    let current := default 0 (counts_get counts rep) in
    (counts_set counts rep (current + 1), total + 1)
  else acc.

Definition byCountDesc (a b : jsstring * Z) : num := Num (snd b - snd a).

Definition getDailySummary (sheets : Spreadsheet) (dateIso : jsstring) : Summary :=
  let values := SalesLog sheets in
  if (length values <=? 1)%nat then {| perRep := []; total := 0 |}
  else
    let '(counts, total) := fold_left (tally dateIso) (drop 1 values) ([], 0) in
    {| perRep := sort byCountDesc counts; total := total |}.

(** *** resetTodayAndMaybeWeek *)

(** The callback of [rows.map]. *)
Definition resetRow (isMonday : bool) (nowIso : jsstring) (r : row) : row :=
  match or_else (r !! 0%nat) [] with
  | [] => r
  | rep =>
    let today := Num 0 in
    let week := if isMonday then Num 0 else cellInt r 2 in
    let month := cellInt r 3 in
    let lifetime := cellInt r 4 in
    [rep; toString today; toString week; toString month; toString lifetime;
     nowIso]
  end.

Section Reset.
(** [getDay s] is [new Date(s).getDay()] on the host. *)
Variable getDay : jsstring -> num.

Definition resetTodayAndMaybeWeek (sheets : Spreadsheet)
    (currentDateIso nowIso : jsstring) : Spreadsheet :=
  let values := Leaderboard sheets in
  let isMonday := strict_eq (getDay currentDateIso) (Num 1) in
  {| Leaderboard := header values :: map (resetRow isMonday nowIso) (dataRows values);
     SalesLog := SalesLog sheets |}.

End Reset.

End Sheets.

(** ** index.js *)
Module Bot.
Import JS.

Record SaleEvent := {
  repName : jsstring;
  todayReported : num;
  customerName : jsstring;
  installDate : jsstring;
  provider : jsstring;
  speed : jsstring;
  saleDate : jsstring;
  timestamp : jsstring
}.

(** [text.trim().split(/\s+/)] *)
Definition tokenize (text : jsstring) : list jsstring := split_ws (trim text).

(** [tokens[i]] for an index inside the array. *)
Definition token (tokens : list jsstring) (i : nat) : jsstring :=
  default [] (tokens !! i).

(** The speed token: the last token, or the one before it when the last
    one fails the pattern and that one passes. *)
Definition speedToken (tokens : list jsstring) : jsstring :=
  let speed := token tokens (length tokens - 1) in
  if negb (speedPattern_test speed) && (2 <=? length tokens)%nat then
    let maybeSpeed := token tokens (length tokens - 2) in
    if speedPattern_test maybeSpeed then maybeSpeed else speed
  else speed.

(** [parseSalesMessage(text, senderName)] at the instant [nowIso]; [None]
    is [null]. *)
Definition parseSalesMessage (text senderName nowIso : jsstring)
    : option SaleEvent :=
  match text with
  | [] => None
  | _ =>
    let tokens := tokenize text in
    if (length tokens <? 3)%nat then None else
    match findIndex numberRegex_test tokens with
    | None => None
    | Some countIndex =>
      match numberRegex_exec (token tokens countIndex) with
      | None => None
      | Some countMatch =>
        let todayReported := parseInt countMatch in
        if isNaN todayReported then None else
        match findIndex dateRegex_test tokens with
        | None => None
        | Some dateIndex =>
          if (dateIndex <=? countIndex)%nat then None else
          let installDate := token tokens dateIndex in
          let speed := speedToken tokens in
          let provider :=
            match lastIndexOf speed tokens with
            | Some speedIndex =>
              if (dateIndex <? speedIndex)%nat
              then join_sp (slice (dateIndex + 1) speedIndex tokens)
              else []
            | None => []
            end in
          let customerName := join_sp (slice (countIndex + 1) dateIndex tokens) in
          Some {| repName := senderName;
                  todayReported := todayReported;
                  customerName := customerName;
                  installDate := installDate;
                  provider := provider;
                  speed := speed;
                  saleDate := before_T nowIso;
                  timestamp := nowIso |}
        end
      end
    end
  end.

Inductive Response := Ignored_bot_message | No_sales_data_parsed | OK.

(** The handler of [POST /groupme/webhook], with the spreadsheet as state;
    the second component is the standings sent to the group, if any. *)
Definition webhook (toLowerCase : jsstring -> jsstring)
    (sheets : Sheets.Spreadsheet) (text name sender_type nowIso : jsstring)
    : Sheets.Spreadsheet * option (list (option jsstring * option jsstring))
      * Response :=
  if str_eqb sender_type (utf16 "bot") then (sheets, None, Ignored_bot_message)
  else
    match parseSalesMessage text name nowIso with
    | None => (sheets, None, No_sales_data_parsed)
    | Some parsed =>
      let saleDetails :=
        {| Sheets.customerName := customerName parsed;
           Sheets.installDate := installDate parsed;
           Sheets.provider := provider parsed;
           Sheets.speed := speed parsed;
           Sheets.saleDate := saleDate parsed;
           Sheets.timestamp := timestamp parsed |} in
      let '(sheets', standings) :=
        Sheets.updateLeaderboardAndGetStandings toLowerCase sheets
          (repName parsed) (todayReported parsed) saleDetails nowIso in
      (sheets', Some standings, OK)
    end.

End Bot.

(** ** A sample host *)
Module Host.
Import JS.

(** Lower case of the letters A to Z; it agrees with [toLowerCase] on
    ASCII text. *)
Definition asciiLowerCase (s : jsstring) : jsstring :=
  map (fun u => if ((65 <=? u) && (u <=? 90))%N then (u + 32)%N else u) s.

Definition number_of (s : jsstring) : Z := Z.of_N (N.of_uint (digits_prefix s)).

Definition days_from_civil (y m d : Z) : Z :=
  let y' := if m <=? 2 then y - 1 else y in
  let era := y' / 400 in
  let yoe := y' - era * 400 in
  let mp := (m + 9) mod 12 in
  let doy := (153 * mp + 2) / 5 + d - 1 in
  let doe := yoe * 365 + yoe / 4 - yoe / 100 + doy in
  era * 146097 + doe - 719468.

(** [new Date(s).getDay()] for a date-only text [YYYY-MM-DD] on a host
    whose local time zone is UTC; any other text counts as an invalid
    date. *)
Definition utcGetDay (s : jsstring) : num :=
  let y := take 4 s in
  let m := take 2 (drop 5 s) in
  let d := take 2 (drop 8 s) in
  if (length s =? 10)%nat && forallb is_digit (y ++ m ++ d)
     && str_eqb (take 1 (drop 4 s)) (utf16 "-")
     && str_eqb (take 1 (drop 7 s)) (utf16 "-")
     && (1 <=? number_of m) && (number_of m <=? 12)
     && (1 <=? number_of d) && (number_of d <=? 31)
  then Num ((days_from_civil (number_of y) (number_of m) (number_of d) + 4) mod 7)
  else NaN.

End Host.

(** ** Sample states and messages *)
Module Scenario.
Import JS Sheets.

Definition now : jsstring := utf16 "2025-11-25T10:00:00.000Z".

Definition bobRow : row :=
  [utf16 "Bob"; utf16 "3"; utf16 "10"; utf16 "10"; utf16 "10";
   utf16 "2025-11-25T09:00:00.000Z"].

Definition staleRow : row :=
  [utf16 "Cara"; utf16 "4"; utf16 "6"; utf16 "20"; utf16 "30";
   utf16 "2025-11-24T18:30:00.000Z"].

Definition salesLogHeader : row :=
  [utf16 "Timestamp"; utf16 "Rep"; utf16 "Customer"; utf16 "SaleDate";
   utf16 "InstallDate"; utf16 "Provider"; utf16 "Speed"; utf16 "TodayReported"].

Definition board : Spreadsheet :=
  {| Leaderboard := [leaderboardHeader; staleRow; bobRow];
     SalesLog := [salesLogHeader] |}.

Definition details : SaleDetails :=
  {| customerName := utf16 "Jane Doe"; installDate := utf16 "11/25";
     provider := utf16 "Kinetic"; speed := utf16 "1G";
     saleDate := utf16 "2025-11-25"; timestamp := now |}.

(** A message whose count token carries a minus sign. *)
Definition minusText : jsstring := utf16 "-5 Jane Doe 11/25 Kinetic 1G".

(** The second example of the docstring of [parseSalesMessage]. *)
Definition elliottText : jsstring :=
  utf16 "📶+2 Elliott Ezell 11/25 Kinetic 2G max 1-3".

(** A message whose first token is both the first number and the first
    date. *)
Definition twoDatesText : jsstring := utf16 "11/25 Jane 11/26 Kinetic 1G".

(** The sheets after one sale called out by a sender whose display name is
    empty, starting from an empty leaderboard and a log with its header. *)
Definition namelessSheets : Spreadsheet :=
  (Bot.webhook Host.asciiLowerCase
     {| Leaderboard := []; SalesLog := [salesLogHeader] |}
     (utf16 "+3 Jane Doe 11/25 Kinetic 1G") [] (utf16 "user") now).1.1.

Definition namelessRow : row :=
  [[]; utf16 "3"; utf16 "3"; utf16 "3"; utf16 "3"; now].

Definition nextNight : jsstring := utf16 "2025-11-26T05:00:00.000Z".

End Scenario.

(** ** Notions used to state the properties *)
Module Props.
Import JS Sheets.

(** The rows of the log that [getDailySummary] counts for [dateIso]: Rep
    and SaleDate are both present and SaleDate is the date asked for. *)
Definition counted (dateIso : jsstring) (r : row) : bool :=
  truthy (r !! 1%nat) && truthy (r !! 3%nat)
  && str_eqb (or_else (r !! 3%nat) []) dateIso.


Definition repOf (r : row) : jsstring := or_else (r !! 1%nat) [].

(** The distinct names of a list, in the order of their first
    occurrence. *)
Definition add_name (seen : list jsstring) (k : jsstring) : list jsstring :=
  if bool_decide (k ∈ seen) then seen else seen ++ [k].

Definition first_seen (names : list jsstring) : list jsstring :=
  fold_left add_name names [].

(** What one counted row does to the counts and the total. *)
Definition bump (acc : list (jsstring * Z) * Z) (k : jsstring)
    : list (jsstring * Z) * Z :=
  (counts_set acc.1 k (default 0 (counts_get acc.1 k) + 1), acc.2 + 1).



End Props.

(** ** Earlier revisions of the parser kept in index.js *)
Module History.
Import JS Bot.

Fixpoint isPrefixOf (p s : jsstring) : bool :=
  match p, s with
  | [], _ => true
  | a :: p', b :: s' => (a =? b)%N && isPrefixOf p' s'
  | _ :: _, [] => false
  end.

(** [s.includes(needle)] *)
Fixpoint includes (s needle : jsstring) : bool :=
  isPrefixOf needle s ||
  match s with
  | [] => false
  | _ :: r => includes r needle
  end.

(** The first revision: the message must carry the emoji, the count is
    read in the token 1, the speed is the last token. *)
Definition parseSalesMessage_strict (text senderName nowIso : jsstring)
    : option SaleEvent :=
  match text with
  | [] => None
  | _ =>
    if negb (includes text (utf16 "🛜")) then None else
    let tokens := tokenize text in
    if (length tokens <? 5)%nat then None else
    match numberRegex_exec (token tokens 1) with
    | None => None
    | Some countMatch =>
      let todayReported := parseInt countMatch in
      match findIndex dateRegex_test tokens with
      | None => None
      | Some dateIndex =>
        let speed := token tokens (length tokens - 1) in
        let providerTokens := slice (dateIndex + 1) (length tokens - 1) tokens in
        let provider := join_sp providerTokens in
        let nameTokens := slice 2 dateIndex tokens in
        let customerName := join_sp nameTokens in
        Some {| repName := senderName;
                todayReported := todayReported;
                customerName := customerName;
                installDate := token tokens dateIndex;
                provider := provider;
                speed := speed;
                saleDate := before_T nowIso;
                timestamp := nowIso |}
      end
    end
  end.

(** The second revision: the forgiving parser, with the speed fallback
    written as nested tests. *)
Definition parseSalesMessage_forgiving (text senderName nowIso : jsstring)
    : option SaleEvent :=
  match text with
  | [] => None
  | _ =>
    let tokens := tokenize text in
    if (length tokens <? 3)%nat then None else
    match findIndex numberRegex_test tokens with
    | None => None
    | Some countIndex =>
      match numberRegex_exec (token tokens countIndex) with
      | None => None
      | Some countMatch =>
        let todayReported := parseInt countMatch in
        if isNaN todayReported then None else
        match findIndex dateRegex_test tokens with
        | None => None
        | Some dateIndex =>
          if (dateIndex <=? countIndex + 0)%nat then None else
          let installDate := token tokens dateIndex in
          let speed := token tokens (length tokens - 1) in
          let speed :=
            if negb (speedPattern_test speed) then
              if (2 <=? length tokens)%nat then
                let maybeSpeed := token tokens (length tokens - 2) in
                if speedPattern_test maybeSpeed then maybeSpeed else speed
              else speed
            else speed in
          let provider :=
            match lastIndexOf speed tokens with
            | Some speedIndex =>
              if (dateIndex + 0 <? speedIndex)%nat
              then join_sp (slice (dateIndex + 1) speedIndex tokens)
              else []
            | None => []
            end in
          let nameStart := (countIndex + 1)%nat in
          let nameEnd := dateIndex in
          let customerName := join_sp (slice nameStart nameEnd tokens) in
          Some {| repName := senderName;
                  todayReported := todayReported;
                  customerName := customerName;
                  installDate := installDate;
                  provider := provider;
                  speed := speed;
                  saleDate := before_T nowIso;
                  timestamp := nowIso |}
        end
      end
    end
  end.

End History.

(** ** The server: one request after the other *)
Module Server.
Import JS Sheets.



End Server.

(** ** Further notions used to state properties *)
Module Notions.
Import JS Sheets.

(** The Today cell of a row holds a number. *)
Definition numericToday (r : row) : bool := negb (isNaN (cellInt r 1)).

(** The number in the Today cell (0 when it holds none). *)
Definition todayOf (r : row) : Z :=
  match cellInt r 1 with Num z => z | NaN => 0 end.

(** The rows are in descending order of Today. *)
Definition byTodayDescending (rows : list row) : Prop :=
  StronglySorted (fun a b => todayOf b <= todayOf a) rows.

(** The text has no white space. *)
Definition noWs (t : jsstring) : bool := forallb (fun u => negb (is_ws u)) t.

(** A token as [split] yields them inside a trimmed text: not empty and
    free of white space. *)
Definition isWord (t : jsstring) : bool :=
  match t with [] => false | _ => noWs t end.

(** How many times a name occurs in a list of names. *)
Definition occurrences (k : jsstring) (names : list jsstring) : Z :=
  Z.of_nat (length (List.filter (str_eqb k) names)).




End Notions.

(** ** The range in which the numbers of the embedding are the code's *)
Module Range.
Import JS Sheets Notions.

(** [n] is [NaN] or an integer of magnitude below [b]. *)
Definition below (b : Z) (n : num) : Prop :=
  match n with Num z => - b < z < b | NaN => True end.

(** Below 2^53 an integer is a double: [parseInt] reads its digits
    exactly, [toString] prints it in plain digits, and [+] and [-] are
    exact as long as their result stays in the range. *)
Definition safe (n : num) : Prop := below 9007199254740992 n.

(** Below 2^51: a sum or a difference of up to three such numbers is
    [safe]. *)
Definition small (n : num) : Prop := below 2251799813685248 n.

(** Today, Week, Month and Lifetime of a row are [small]. *)
Definition smallCounters (r : row) : Prop :=
  small (cellInt r 1) /\ small (cellInt r 2)
  /\ small (cellInt r 3) /\ small (cellInt r 4).

(** The Today cell of a row holds a [safe] number. *)
Definition safeToday (r : row) : Prop :=
  numericToday r = true /\ safe (cellInt r 1).

(** Week, Month and Lifetime of a row are [safe]. *)
Definition safeTotals (r : row) : Prop :=
  safe (cellInt r 2) /\ safe (cellInt r 3) /\ safe (cellInt r 4).

End Range.

(** ** The weekday of a date on a host with a time zone *)
Module HostZone.
Import JS.

Definition isLeapYear (y : Z) : bool :=
  ((y mod 4 =? 0) && negb (y mod 100 =? 0)) || (y mod 400 =? 0).

Definition daysInMonth (y m : Z) : Z :=
  if m =? 2 then (if isLeapYear y then 29 else 28)
  else if (m =? 4) || (m =? 6) || (m =? 9) || (m =? 11) then 30
  else 31.

(** The days from 1970-01-01 to the calendar date written by a date-only
    text [YYYY-MM-DD]; [None] for any other text. *)
Definition isoDays (s : jsstring) : option Z :=
  let y := take 4 s in
  let m := take 2 (drop 5 s) in
  let d := take 2 (drop 8 s) in
  if (length s =? 10)%nat && forallb is_digit (y ++ m ++ d)
     && str_eqb (take 1 (drop 4 s)) (utf16 "-")
     && str_eqb (take 1 (drop 7 s)) (utf16 "-")
     && (1 <=? Host.number_of m) && (Host.number_of m <=? 12)
     && (1 <=? Host.number_of d)
     && (Host.number_of d <=? daysInMonth (Host.number_of y) (Host.number_of m))
  then Some (Host.days_from_civil (Host.number_of y) (Host.number_of m)
               (Host.number_of d))
  else None.

(** The weekday of a day counted from 1970-01-01, a Thursday: 0 is Sunday,
    1 is Monday. *)
Definition weekdayOf (days : Z) : Z := (days + 4) mod 7.

(** [new Date(s).getDay()] for a date-only text on a host whose local time
    is [offset] minutes ahead of UTC: the text is read as midnight UTC,
    and the weekday is the one of that instant in local time.  A text that
    writes no calendar date is left to the engine (some read
    ['2025-02-30'] as the second of March); the theorems use this
    definition only on texts for which [isoDays] answers. *)
Definition localGetDay (offset : Z) (s : jsstring) : num :=
  match isoDays s with
  | Some days => Num (weekdayOf ((days * 1440 + offset) / 1440))
  | None => NaN
  end.

End HostZone.

(** ** Facts about the JavaScript fragment *)
Module JSFacts.
Import JS Range.

Lemma digits_prefix_units (d : uint) : digits_prefix (units_of_uint d) = d.
Proof. induction d; simpl; [reflexivity | rewrite IHd; reflexivity ..]. Qed.

(** A numeral that is not empty starts with a digit. *)
Lemma units_head (d : uint) :
  d <> Nil ->
  exists u r, units_of_uint d = u :: r /\ is_digit u = true.
Proof.
  destruct d; intros Hd; [congruence | simpl; eexists _, _; split; reflexivity ..].
Qed.

Lemma digit_not_ws (u : N) : is_digit u = true -> is_ws u = false.
Proof.
  unfold is_digit, is_ws. intros H.
  apply andb_prop in H as [H1%N.leb_le H2%N.leb_le].
  repeat match goal with
  | |- context [(?a <=? ?b)%N] => destruct (N.leb_spec a b)
  | |- context [(?a =? ?b)%N] => destruct (N.eqb_spec a b)
  end; simpl; try reflexivity; lia.
Qed.

Lemma digit_not_sign (u : N) :
  is_digit u = true -> (u =? ch "-")%N = false /\ (u =? ch "+")%N = false.
Proof.
  unfold is_digit. intros H.
  apply andb_prop in H as [H1%N.leb_le H2%N.leb_le].
  change (ch "-") with 45%N. change (ch "+") with 43%N.
  split; apply N.eqb_neq; lia.
Qed.

(** Reading back the digits of a positive number below 2^53. *)
Lemma parseInt_digits (p : positive) :
  Z.pos p < 9007199254740992 ->
  parseInt (units_of_uint (Pos.to_uint p)) = Num (Zpos p).
Proof.
  intros _.
  destruct (units_head (Pos.to_uint p) (Unsigned.to_uint_nonnil p))
    as (u & r & Hu & Hd).
  unfold parseInt. rewrite Hu. simpl dropWhile.
  rewrite (digit_not_ws u Hd).
  destruct (digit_not_sign u Hd) as [-> ->].
  rewrite <- Hu, digits_prefix_units.
  pose proof (Unsigned.to_uint_nonnil p) as Hn.
  pose proof (Unsigned.of_to p) as Hof.
  destruct (Pos.to_uint p) eqn:E; try congruence;
    unfold N.of_uint; rewrite Hof; reflexivity.
Qed.

Lemma parseInt_minus (u : N) (r : jsstring) :
  is_digit u = true ->
  parseInt (ch "-" :: u :: r) =
  match parseInt (u :: r) with Num v => Num (- v) | NaN => NaN end.
Proof.
  intros Hd. unfold parseInt.
  change (ch "-") with 45%N. change (ch "+") with 43%N.
  cbn [dropWhile]. change (is_ws 45) with false. cbv iota.
  change (45 =? 45)%N with true. cbv iota beta.
  rewrite (digit_not_ws u Hd).
  destruct (digit_not_sign u Hd) as [E1 E2].
  change (ch "-") with 45%N in E1. change (ch "+") with 43%N in E2.
  rewrite E1, E2.
  destruct (digits_prefix (u :: r)); reflexivity.
Qed.

(** In the safe range [parseInt] reads back what [toString] prints, [NaN]
    included. *)
Lemma parseInt_toString (n : num) : safe n -> parseInt (toString n) = n.
Proof.
  unfold safe, below.
  destruct n as [[|p|p]|]; intros Hsafe; try reflexivity.
  - apply parseInt_digits. lia.
  - pose proof (parseInt_digits p ltac:(lia)) as H.
    destruct (units_head (Pos.to_uint p) (Unsigned.to_uint_nonnil p))
      as (u & r & Hu & Hd).
    change (toString (Num (Z.neg p)))
      with (ch "-" :: units_of_uint (Pos.to_uint p)).
    rewrite Hu in *.
    rewrite (parseInt_minus u r Hd), H. reflexivity.
Qed.

Lemma toString_nonempty (n : num) : exists u r, toString n = u :: r.
Proof.
  destruct n as [[|p|p]|]; simpl; eauto.
  destruct (units_head (Pos.to_uint p) (Unsigned.to_uint_nonnil p))
    as (u & r & Hu & _); eauto.
Qed.

Lemma or_else_toString (n : num) (d : jsstring) :
  or_else (Some (toString n)) d = toString n.
Proof. destruct (toString_nonempty n) as (u & r & ->). reflexivity. Qed.

Lemma str_eqb_eq (s t : jsstring) : str_eqb s t = true <-> s = t.
Proof. unfold str_eqb. apply bool_decide_eq_true. Qed.

Lemma str_eqb_neq (s t : jsstring) : str_eqb s t = false <-> s <> t.
Proof. unfold str_eqb. apply bool_decide_eq_false. Qed.

(** *** findIndex *)

Lemma findIndex_Some {A} (p : A -> bool) (l : list A) (i : nat) :
  findIndex p l = Some i ->
  (exists x, l !! i = Some x /\ p x = true) /\
  (forall j y, (j < i)%nat -> l !! j = Some y -> p y = false).
Proof.
  revert i. induction l as [|x l IH]; intros i H; simpl in H; [discriminate|].
  destruct (p x) eqn:Hp.
  - injection H as <-. split; [exists x; split; [reflexivity | exact Hp] | intros; lia].
  - destruct (findIndex p l) as [k|]; [|discriminate].
    injection H as <-. destruct (IH k eq_refl) as [Hx Hlt]. split; [exact Hx|].
    intros [|j] y Hj Hy; simpl in Hy; [congruence | apply (Hlt j y); [lia | exact Hy]].
Qed.

Lemma findIndex_None {A} (p : A -> bool) (l : list A) :
  findIndex p l = None <-> (forall x, x ∈ l -> p x = false).
Proof.
  induction l as [|x l IH]; simpl.
  - split; [intros _ y Hy; inversion Hy | reflexivity].
  - destruct (p x) eqn:Hp.
    + split; [discriminate | intros H; rewrite (H x) in Hp; [discriminate | left]].
    + destruct (findIndex p l); simpl.
      * split; [discriminate|]. intros H.
        destruct IH as [_ IH]. discriminate IH. intros y Hy. apply H. by right.
      * split; [|reflexivity]. intros _ y Hy.
        apply elem_of_cons in Hy as [-> | Hy]; [exact Hp | by apply IH].
Qed.

(** *** The sort *)

Lemma sort_insert_perm {A} (cmp : A -> A -> num) (x : A) (l : list A) :
  sort_insert cmp x l ≡ₚ x :: l.
Proof.
  induction l as [|y l IH]; cbn [sort_insert]; [reflexivity|].
  destruct (lt (Num 0) (cmp x y)); [|reflexivity].
  rewrite IH. apply Permutation_swap.
Qed.

(** The sort only reorders. *)
Lemma sort_perm {A} (cmp : A -> A -> num) (l : list A) : sort cmp l ≡ₚ l.
Proof.
  induction l as [|x l IH]; simpl; [reflexivity|].
  unfold sort in *. simpl. rewrite sort_insert_perm. by rewrite IH.
Qed.



End JSFacts.

(** ** The reconciler *)
Module ReconcilerFacts.
Import JS Sheets JSFacts Range.

Section WithLowerCase.
Variable toLowerCase : jsstring -> jsstring.

Local Abbreviation reconcile := (updateLeaderboardAndGetStandings toLowerCase).

(** A cell that holds a printed number of the safe range is read back as
    that number. *)
Lemma cellInt_printed (a x1 x2 x3 x4 b : jsstring) (i : nat) (n : num) :
  [a; x1; x2; x3; x4; b] !! i = Some (toString n) ->
  safe n ->
  cellInt [a; x1; x2; x3; x4; b] i = n.
Proof.
  intros H Hsafe. unfold cellInt. rewrite H, or_else_toString.
  by apply parseInt_toString.
Qed.

Lemma small_safe (n : num) : small n -> safe n.
Proof. unfold small, safe, below. destruct n; [lia | done]. Qed.

Lemma small_zero : small (Num 0).
Proof. unfold small, below. lia. Qed.

Lemma small_add_safe (a b : num) : small a -> small b -> safe (add a b).
Proof.
  unfold small, safe, below. destruct a, b; cbn [add]; try done. lia.
Qed.

(** A counter plus the increment stays in the safe range when the counter,
    the report and the baseline are small. *)
Lemma small_delta_safe (w t p : num) :
  small w -> small t -> small p -> safe (add w (saleDelta t p)).
Proof.
  unfold small, safe, below, saleDelta.
  destruct w as [w|], t as [t|], p as [p|]; cbn [sub lt add]; try done.
  destruct (t - p <? 0); cbn [add]; lia.
Qed.

Lemma prevToday_small (r : row) (currentDate : jsstring) :
  small (cellInt r 1) -> small (prevToday r currentDate).
Proof.
  intros H. unfold prevToday.
  destruct (_ && _); [apply small_zero | exact H].
Qed.

(** The data rows written back are the reconciled rows, sorted. *)
Lemma persisted_rows sheets repName t d nowIso :
  dataRows (Leaderboard (reconcile sheets repName t d nowIso).1) =
  sort byTodayDesc
    (reconciledRows toLowerCase (dataRows (Leaderboard sheets)) repName t
       (saleDate d) nowIso).
Proof. reflexivity. Qed.

Lemma persisted_perm sheets repName t d nowIso :
  dataRows (Leaderboard (reconcile sheets repName t d nowIso).1) ≡ₚ
  reconciledRows toLowerCase (dataRows (Leaderboard sheets)) repName t
    (saleDate d) nowIso.
Proof. rewrite persisted_rows. apply sort_perm. Qed.

Lemma reconciledRows_existing rows repName t currentDate nowIso i r :
  findIndex (isRep toLowerCase repName) rows = Some i ->
  rows !! i = Some r ->
  reconciledRows toLowerCase rows repName t currentDate nowIso =
  <[i := updatedRepRow r t currentDate nowIso]> rows.
Proof. intros Hi Hr. unfold reconciledRows. by rewrite Hi, Hr. Qed.

Lemma reconciledRows_new rows repName t currentDate nowIso :
  findIndex (isRep toLowerCase repName) rows = None ->
  reconciledRows toLowerCase rows repName t currentDate nowIso =
  rows ++ [newRepRow repName t nowIso].
Proof. intros Hi. unfold reconciledRows. by rewrite Hi. Qed.

(** The baseline is 0 exactly on a day change. *)
Lemma prevToday_cases (r : row) (currentDate : jsstring) :
  let lastUpdate := or_else (r !! 5%nat) [] in
  prevToday r currentDate =
  if bool_decide (lastUpdate <> [] /\ take 10 lastUpdate <> currentDate)
  then Num 0 else cellInt r 1.
Proof.
  unfold prevToday, prevDate.
  destruct (or_else (r !! 5%nat) []) as [|u s] eqn:E.
  - cbn [truthy andb]. rewrite bool_decide_eq_false_2; [reflexivity | intros [H _]; congruence].
  - change (take 10 (u :: s)) with (u :: take 9 s).
    cbn [truthy default from_option id andb].
    case_bool_decide as Hc;
      destruct (str_eqb (u :: take 9 s) currentDate) eqn:Hd;
      cbn [negb]; try reflexivity.
    + apply str_eqb_eq in Hd. destruct Hc as [_ Hc]. by destruct Hc.
    + apply str_eqb_neq in Hd. exfalso. apply Hc.
      split; [discriminate | exact Hd].
Qed.

(** With a report that is not negative and a numeric baseline, the
    increment is not negative. *)
Lemma saleDelta_nonneg (t p : Z) :
  0 <= t -> exists dl, saleDelta (Num t) (Num p) = Num dl /\ 0 <= dl.
Proof.
  intros Ht. unfold saleDelta. cbn [sub lt].
  destruct (Z.ltb_spec (t - p) 0); eexists; split; try reflexivity; lia.
Qed.

Lemma isRep_name repName (r : row) :
  isRep toLowerCase repName r = true ->
  exists name, r !! 0%nat = Some name /\ default [] (r !! 0%nat) = name.
Proof.
  unfold isRep. destruct (r !! 0%nat) as [[|u s]|]; try discriminate.
  intros _. by exists (u :: s).
Qed.

Lemma persisted_existing sheets repName t d nowIso i r :
  findIndex (isRep toLowerCase repName) (dataRows (Leaderboard sheets)) = Some i ->
  dataRows (Leaderboard sheets) !! i = Some r ->
  dataRows (Leaderboard (reconcile sheets repName t d nowIso).1) ≡ₚ
  <[i := updatedRepRow r t (saleDate d) nowIso]> (dataRows (Leaderboard sheets)).
Proof.
  intros Hi Hr. rewrite persisted_perm.
  by rewrite (reconciledRows_existing _ _ _ _ _ _ _ Hi Hr).
Qed.

(** C8 — A sale of a rep that [findIndex] matches with no row of the
    leaderboard (no case-insensitive match) adds exactly one row: the
    written rows are the old rows and one new row, up to the order, and in
    the new row Today, Week, Month and Lifetime all hold [todayReported]
    and LastUpdate holds the current time.  [todayReported] is taken in
    the range where a number is printed and read back exactly (below
    2^53). *)
Theorem new_rep_creates_entry sheets repName t d nowIso :
  findIndex (isRep toLowerCase repName) (dataRows (Leaderboard sheets)) = None ->
  safe t ->
  let entry :=
    [repName; toString t; toString t; toString t; toString t; nowIso] in
  dataRows (Leaderboard (reconcile sheets repName t d nowIso).1)
    ≡ₚ dataRows (Leaderboard sheets) ++ [entry]
  /\ cellInt entry 1 = t /\ cellInt entry 2 = t
  /\ cellInt entry 3 = t /\ cellInt entry 4 = t
  /\ entry !! 5%nat = Some nowIso.
Proof.
  intros Hnone Hsafe entry. split.
  - rewrite persisted_perm. by rewrite (reconciledRows_new _ _ _ _ _ Hnone).
  - repeat split; try (by apply cellInt_printed).
Qed.

(** C6 — For a rep found in the leaderboard on the same day (LastUpdate
    absent, or its first ten characters equal to the sale date), when
    [todayReported - today] is negative the written row holds
    [todayReported] as Today and Week, Month and Lifetime each increased
    by [todayReported] itself.  The report and the four counters of the
    row are taken below 2^51, so that every number read, added and
    written is exact. *)
Theorem smaller_report_added_in_full sheets repName t d nowIso i r :
  findIndex (isRep toLowerCase repName) (dataRows (Leaderboard sheets)) = Some i ->
  dataRows (Leaderboard sheets) !! i = Some r ->
  (or_else (r !! 5%nat) [] = [] \/
   take 10 (or_else (r !! 5%nat) []) = saleDate d) ->
  small t -> smallCounters r ->
  lt (sub t (cellInt r 1)) (Num 0) = true ->
  let entry :=
    [default [] (r !! 0%nat); toString t; toString (add (cellInt r 2) t);
     toString (add (cellInt r 3) t); toString (add (cellInt r 4) t); nowIso] in
  dataRows (Leaderboard (reconcile sheets repName t d nowIso).1)
    ≡ₚ <[i := entry]> (dataRows (Leaderboard sheets))
  /\ entry !! 0%nat = r !! 0%nat
  /\ cellInt entry 1 = t
  /\ cellInt entry 2 = add (cellInt r 2) t
  /\ cellInt entry 3 = add (cellInt r 3) t
  /\ cellInt entry 4 = add (cellInt r 4) t.
Proof.
  intros Hi Hr Hday Ht (H1 & H2 & H3 & H4) Hneg entry.
  assert (updatedRepRow r t (saleDate d) nowIso = entry) as Hrow.
  { unfold updatedRepRow, entry, saleDelta.
    pose proof (prevToday_cases r (saleDate d)) as Hp. cbv zeta in Hp.
    rewrite bool_decide_eq_false_2 in Hp by (intros [Ha Hb]; destruct Hday; tauto).
    by rewrite Hp, Hneg. }
  split; [rewrite <- Hrow; by apply persisted_existing|].
  destruct (findIndex_Some _ _ _ Hi) as [(x & Hx & Hrep) _].
  rewrite Hr in Hx. injection Hx as <-.
  destruct (isRep_name _ _ Hrep) as (name & Hn & Hdef).
  split; [unfold entry; rewrite Hdef, Hn; reflexivity|].
  repeat split; apply cellInt_printed; try reflexivity;
    auto using small_safe, small_add_safe.
Qed.

(** C7 — For a rep found in the leaderboard, the baseline of the delta is
    0 when LastUpdate is present and its first ten characters differ from
    the sale date, whatever Today holds, and the stored Today otherwise;
    the written row is computed from that baseline.  The report and the
    four counters of the row are taken below 2^51, so that every number
    read, added and written is exact. *)
Theorem day_rollover_baseline sheets repName t d nowIso i r :
  findIndex (isRep toLowerCase repName) (dataRows (Leaderboard sheets)) = Some i ->
  dataRows (Leaderboard sheets) !! i = Some r ->
  small t -> smallCounters r ->
  let lastUpdate := or_else (r !! 5%nat) [] in
  let baseline :=
    if bool_decide (lastUpdate <> [] /\ take 10 lastUpdate <> saleDate d)
    then Num 0 else cellInt r 1 in
  let delta :=
    if lt (sub t baseline) (Num 0) then t else sub t baseline in
  let entry :=
    [default [] (r !! 0%nat); toString t; toString (add (cellInt r 2) delta);
     toString (add (cellInt r 3) delta); toString (add (cellInt r 4) delta);
     nowIso] in
  prevToday r (saleDate d) = baseline
  /\ dataRows (Leaderboard (reconcile sheets repName t d nowIso).1)
       ≡ₚ <[i := entry]> (dataRows (Leaderboard sheets))
  /\ cellInt entry 1 = t
  /\ cellInt entry 2 = add (cellInt r 2) delta
  /\ cellInt entry 3 = add (cellInt r 3) delta
  /\ cellInt entry 4 = add (cellInt r 4) delta.
Proof.
  intros Hi Hr Ht (H1 & H2 & H3 & H4) lastUpdate baseline delta entry.
  pose proof (prevToday_cases r (saleDate d)) as Hp. cbv zeta in Hp.
  fold lastUpdate in Hp. fold baseline in Hp.
  assert (updatedRepRow r t (saleDate d) nowIso = entry) as Hrow.
  { unfold updatedRepRow, entry, saleDelta, delta. by rewrite Hp. }
  assert (small baseline) as Hb.
  { rewrite <- Hp. by apply prevToday_small. }
  assert (delta = saleDelta t baseline) as Hdelta by reflexivity.
  split; [exact Hp|].
  split; [rewrite <- Hrow; by apply persisted_existing|].
  repeat split; apply cellInt_printed; try reflexivity;
    rewrite ?Hdelta; auto using small_safe, small_delta_safe.
Qed.

(** C9 — One reconciliation keeps the header and rewrites at most one
    row: the written rows are, up to the order, a list that agrees with
    the old rows at every old position but one, and that holds every row
    whose Rep does not match the event's rep, cell for cell, at its old
    position; so each such row is among the written rows. *)
Theorem reconcile_frame sheets repName t d nowIso :
  let rows := dataRows (Leaderboard sheets) in
  let written := Leaderboard (reconcile sheets repName t d nowIso).1 in
  head written = Some (header (Leaderboard sheets))
  /\ (exists mid : list row,
        dataRows written ≡ₚ mid
        /\ (forall j r, rows !! j = Some r ->
              isRep toLowerCase repName r = false -> mid !! j = Some r)
        /\ (exists i, forall j, (j < length rows)%nat -> j <> i ->
              mid !! j = rows !! j))
  /\ (forall r, r ∈ rows -> isRep toLowerCase repName r = false ->
        r ∈ dataRows written).
Proof.
  intros rows written.
  assert (exists mid : list row,
    dataRows written ≡ₚ mid
    /\ (forall j r, rows !! j = Some r ->
          isRep toLowerCase repName r = false -> mid !! j = Some r)
    /\ (exists i, forall j, (j < length rows)%nat -> j <> i ->
          mid !! j = rows !! j)) as Hmid.
  { exists (reconciledRows toLowerCase rows repName t (saleDate d) nowIso).
    split; [apply persisted_perm|].
    unfold reconciledRows.
    destruct (findIndex (isRep toLowerCase repName) rows) as [i|] eqn:Hi.
    - destruct (findIndex_Some _ _ _ Hi) as [(x & Hx & Hrep) _].
      rewrite Hx. split.
      + intros j r Hj Hno. rewrite list_lookup_insert_ne; [exact Hj|].
        intros ->. rewrite Hx in Hj. injection Hj as ->. congruence.
      + exists i. intros j _ Hne. by rewrite list_lookup_insert_ne.
    - split.
      + intros j r Hj _. rewrite lookup_app_l; [exact Hj|].
        by eapply lookup_lt_Some.
      + exists (length rows). intros j Hj _. by rewrite lookup_app_l. }
  split; [reflexivity|]. split; [exact Hmid|].
  destruct Hmid as (mid & Hperm & Hkeep & _).
  intros r Hr Hno. rewrite Hperm.
  apply list_elem_of_lookup in Hr as [j Hj].
  apply list_elem_of_lookup. exists j. by apply Hkeep.
Qed.

End WithLowerCase.

Lemma new_rep_creates_entry_witness :
  findIndex (isRep Host.asciiLowerCase (utf16 "Alice"))
    (dataRows (Leaderboard Scenario.board)) = None
  /\ dataRows (Leaderboard (updateLeaderboardAndGetStandings Host.asciiLowerCase
        Scenario.board (utf16 "Alice") (Num 2) Scenario.details Scenario.now).1)
     ≡ₚ dataRows (Leaderboard Scenario.board)
        ++ [[utf16 "Alice"; utf16 "2"; utf16 "2"; utf16 "2"; utf16 "2";
             Scenario.now]].
Proof.
  split; [reflexivity|].
  apply (new_rep_creates_entry Host.asciiLowerCase Scenario.board
           (utf16 "Alice") (Num 2) Scenario.details Scenario.now);
    [reflexivity | vm_compute; repeat split].
Defined.

Lemma smaller_report_added_in_full_witness :
  lt (sub (Num 1) (cellInt Scenario.bobRow 1)) (Num 0) = true
  /\ dataRows (Leaderboard (updateLeaderboardAndGetStandings Host.asciiLowerCase
        Scenario.board (utf16 "bob") (Num 1) Scenario.details Scenario.now).1)
     ≡ₚ <[1%nat := [utf16 "Bob"; utf16 "1"; utf16 "11"; utf16 "11"; utf16 "11";
                    Scenario.now]]> (dataRows (Leaderboard Scenario.board)).
Proof.
  split; [reflexivity|].
  apply (smaller_report_added_in_full Host.asciiLowerCase Scenario.board
           (utf16 "bob") (Num 1) Scenario.details Scenario.now 1%nat
           Scenario.bobRow);
    [reflexivity | reflexivity | right; reflexivity
    | vm_compute; repeat split | vm_compute; repeat split | reflexivity].
Defined.

Lemma day_rollover_baseline_witness :
  prevToday Scenario.staleRow (saleDate Scenario.details) = Num 0
  /\ dataRows (Leaderboard (updateLeaderboardAndGetStandings Host.asciiLowerCase
        Scenario.board (utf16 "CARA") (Num 1) Scenario.details Scenario.now).1)
     ≡ₚ <[0%nat := [utf16 "Cara"; utf16 "1"; utf16 "7"; utf16 "21"; utf16 "31";
                    Scenario.now]]> (dataRows (Leaderboard Scenario.board)).
Proof.
  assert (small (Num 1)) as Ht by (vm_compute; repeat split).
  assert (smallCounters Scenario.staleRow) as Hc by (vm_compute; repeat split).
  pose proof (day_rollover_baseline Host.asciiLowerCase Scenario.board
                (utf16 "CARA") (Num 1) Scenario.details Scenario.now 0%nat
                Scenario.staleRow eq_refl eq_refl Ht Hc) as (H1 & H2 & _).
  split; [exact H1 | exact H2].
Defined.

(** With a report that is not negative, a numeric baseline and a numeric
    counter, the counter does not decrease. *)
Lemma nonneg_report_monotone (r : row) (z p w : Z) (k : nat)
    (currentDate : jsstring) :
  0 <= z ->
  prevToday r currentDate = Num p ->
  cellInt r k = Num w ->
  exists w', add (cellInt r k) (saleDelta (Num z) (prevToday r currentDate)) = Num w'
             /\ w <= w'.
Proof.
  intros Hz Hp Hw. rewrite Hp, Hw.
  destruct (saleDelta_nonneg z p Hz) as (dl & -> & Hdl).
  exists (w + dl). split; [reflexivity | lia].
Qed.

(** With a negative report and a baseline that is not negative, the
    increment is the negative report itself. *)
Lemma saleDelta_negative_report (t p : Z) :
  t < 0 -> 0 <= p -> saleDelta (Num t) (Num p) = Num t.
Proof.
  intros Ht Hp. unfold saleDelta. cbn [sub lt].
  destruct (Z.ltb_spec (t - p) 0); [reflexivity | lia].
Qed.

(** C1 — The message [-5 Jane Doe 11/25 Kinetic 1G] sent by Bob parses to
    a sale with [todayReported = -5]; reconciled on the same day with
    Bob's row (Today 3, Week 10, Month 10, Lifetime 10) it writes Week,
    Month and Lifetime 5: each of the three counters decreases. *)
Theorem negative_report_lowers_counters :
  Bot.todayReported <$>
    Bot.parseSalesMessage Scenario.minusText (utf16 "Bob") Scenario.now
  = Some (Num (-5))
  /\ Leaderboard Scenario.board
     = [leaderboardHeader; Scenario.staleRow;
        [utf16 "Bob"; utf16 "3"; utf16 "10"; utf16 "10"; utf16 "10";
         utf16 "2025-11-25T09:00:00.000Z"]]
  /\ Leaderboard (Bot.webhook Host.asciiLowerCase Scenario.board
        Scenario.minusText (utf16 "Bob") (utf16 "user") Scenario.now).1.1
     = [leaderboardHeader; Scenario.staleRow;
        [utf16 "Bob"; utf16 "-5"; utf16 "5"; utf16 "5"; utf16 "5"; Scenario.now]]
  /\ lt (cellInt [utf16 "Bob"; utf16 "-5"; utf16 "5"; utf16 "5"; utf16 "5";
                  Scenario.now] 2)
        (cellInt Scenario.bobRow 2) = true.
Proof. repeat split; vm_compute; reflexivity. Qed.

End ReconcilerFacts.

(** ** The nightly reset *)
Module ResetFacts.
Import JS Sheets JSFacts Range.

Lemma truthy_or_else (c : option jsstring) :
  or_else c [] = [] <-> truthy c = false.
Proof. destruct c as [[|u s]|]; simpl; split; congruence. Qed.

Section WithGetDay.
Variable getDay : jsstring -> num.

Lemma reset_rows sheets currentDateIso nowIso :
  dataRows (Leaderboard (resetTodayAndMaybeWeek getDay sheets currentDateIso nowIso)) =
  map (resetRow (strict_eq (getDay currentDateIso) (Num 1)) nowIso)
    (dataRows (Leaderboard sheets)).
Proof. reflexivity. Qed.


(** C10 — A row whose Rep cell is empty or missing is written back as it
    is, at the same position, by every call of the reset. *)
Theorem reset_skips_blank_rep sheets currentDateIso nowIso j (r : row) :
  dataRows (Leaderboard sheets) !! j = Some r ->
  truthy (r !! 0%nat) = false ->
  dataRows (Leaderboard (resetTodayAndMaybeWeek getDay sheets currentDateIso nowIso))
    !! j = Some r.
Proof.
  intros Hj Hrep. rewrite reset_rows, list_lookup_fmap, Hj. cbn [fmap option_fmap option_map].
  f_equal. unfold resetRow.
  apply truthy_or_else in Hrep. by rewrite Hrep.
Qed.

End WithGetDay.




(** On a host west of UTC the midnight UTC of a Monday is still Sunday in
    local time: the weekday test fails and Week is kept. *)
Lemma monday_reset_skipped_west_of_utc :
  HostZone.weekdayOf <$> HostZone.isoDays (utf16 "2025-11-24") = Some 1
  /\ HostZone.localGetDay (-360) (utf16 "2025-11-24") = Num 0
  /\ dataRows (Leaderboard (resetTodayAndMaybeWeek (HostZone.localGetDay (-360))
        Scenario.board (utf16 "2025-11-24") Scenario.nextNight)) !! 0%nat
     = Some [utf16 "Cara"; utf16 "0"; utf16 "6"; utf16 "20"; utf16 "30";
             Scenario.nextNight].
Proof. repeat split; vm_compute; reflexivity. Qed.

Lemma reset_skips_blank_rep_witness :
  truthy (Scenario.namelessRow !! 0%nat) = false
  /\ dataRows (Leaderboard (resetTodayAndMaybeWeek Host.utcGetDay
        Scenario.namelessSheets (utf16 "2025-11-24") Scenario.nextNight))
     !! 0%nat = Some Scenario.namelessRow.
Proof.
  split; [reflexivity|].
  apply (reset_skips_blank_rep Host.utcGetDay Scenario.namelessSheets
           (utf16 "2025-11-24") Scenario.nextNight 0%nat Scenario.namelessRow);
    reflexivity.
Defined.


End ResetFacts.

(** ** The daily summary *)
Module SummaryFacts.
Import JS Sheets JSFacts Props.

Lemma tally_bump dateIso acc (r : row) :
  tally dateIso acc r = if counted dateIso r then bump acc (repOf r) else acc.
Proof.
  destruct acc as [m t]. unfold tally, counted, repOf, bump.
  destruct (r !! 1%nat) as [[|u s]|], (r !! 3%nat) as [[|v w]|];
    cbn [or_else truthy negb orb andb fst snd]; try reflexivity;
    destruct (str_eqb _ dateIso); reflexivity.
Qed.

Lemma fold_tally dateIso (rows : list row) acc :
  fold_left (tally dateIso) rows acc =
  fold_left bump (map repOf (List.filter (counted dateIso) rows)) acc.
Proof.
  revert acc. induction rows as [|r rows IH]; intros acc; [reflexivity|].
  cbn [fold_left List.filter]. rewrite tally_bump, IH.
  destruct (counted dateIso r); reflexivity.
Qed.

Lemma bump_total ks acc :
  (fold_left bump ks acc).2 = acc.2 + Z.of_nat (length ks).
Proof.
  revert acc. induction ks as [|k ks IH]; intros acc; cbn [fold_left length].
  - lia.
  - rewrite IH. cbn [bump snd]. lia.
Qed.



Lemma keys_set m k v : map fst (counts_set m k v) = add_name (map fst m) k.
Proof.
  unfold add_name.
  induction m as [|[k' v'] m IH]; cbn [counts_set map fst].
  - rewrite bool_decide_eq_false_2; [reflexivity | intros H; inversion H].
  - destruct (str_eqb k' k) eqn:E.
    + apply str_eqb_eq in E as ->.
      rewrite bool_decide_eq_true_2; [reflexivity | left].
    + apply str_eqb_neq in E. cbn [map fst]. rewrite IH.
      case_bool_decide as H1; case_bool_decide as H2; try reflexivity.
      * exfalso. apply H2. by right.
      * exfalso. apply elem_of_cons in H2 as [H2 | H2]; [congruence | tauto].
Qed.

Lemma bump_keys ks acc :
  map fst (fold_left bump ks acc).1 = fold_left add_name ks (map fst acc.1).
Proof.
  revert acc. induction ks as [|k ks IH]; intros acc; [reflexivity|].
  cbn [fold_left]. rewrite IH. cbn [bump fst]. by rewrite keys_set.
Qed.






Example summary_of_four_rows :
  getDailySummary
    {| Leaderboard := [];
       SalesLog :=
         [Scenario.salesLogHeader;
          [utf16 "t1"; utf16 "Ann"; utf16 "c1"; utf16 "2025-11-25"];
          [utf16 "t2"; utf16 "Bob"; utf16 "c2"; utf16 "2025-11-25"];
          [utf16 "t3"; utf16 "Cy"; utf16 "c3"; utf16 "2025-11-24"];
          [utf16 "t4"; utf16 "Bob"; utf16 "c4"; utf16 "2025-11-25"];
          [utf16 "t5"; utf16 "Dee"; utf16 "c5"; utf16 "2025-11-25"]] |}
    (utf16 "2025-11-25")
  = {| perRep := [(utf16 "Bob", 2); (utf16 "Ann", 1); (utf16 "Dee", 1)];
       total := 4 |}.
Proof. vm_compute. reflexivity. Qed.


End SummaryFacts.

(** ** The parser *)
Module ParserFacts.
Import JS JSFacts Bot.

Lemma digit_of_unit_nonnil (u : N) (d : uint) : digit_of_unit u d <> Nil.
Proof.
  unfold digit_of_unit.
  repeat match goal with
  | |- context [match ?x with _ => _ end] => destruct x
  end; discriminate.
Qed.

Lemma parseInt_digit_head (u : N) (r : jsstring) :
  is_digit u = true -> isNaN (parseInt (u :: r)) = false.
Proof.
  intros Hd. unfold parseInt. cbn [dropWhile].
  rewrite (digit_not_ws u Hd).
  destruct (digit_not_sign u Hd) as [-> ->].
  cbn [digits_prefix]. rewrite Hd.
  pose proof (digit_of_unit_nonnil u (digits_prefix r)) as Hn.
  destruct (digit_of_unit u (digits_prefix r)); [congruence | reflexivity ..].
Qed.

Lemma parseInt_sign_head (sg u : N) (r : jsstring) :
  ((sg =? ch "+") || (sg =? ch "-"))%N = true ->
  is_digit u = true ->
  isNaN (parseInt (sg :: u :: r)) = false.
Proof.
  intros Hs Hd.
  pose proof (digit_of_unit_nonnil u (digits_prefix r)) as Hn.
  change (ch "+") with 43%N in Hs. change (ch "-") with 45%N in Hs.
  apply orb_prop in Hs as [->%N.eqb_eq | ->%N.eqb_eq];
    unfold parseInt; change (ch "-") with 45%N; change (ch "+") with 43%N;
    cbn [dropWhile].
  - change (is_ws 43) with false. cbv iota.
    change (43 =? 45)%N with false. change (43 =? 43)%N with true.
    cbv iota beta. cbn [digits_prefix]. rewrite Hd.
    destruct (digit_of_unit u (digits_prefix r)); [congruence | reflexivity ..].
  - change (is_ws 45) with false. cbv iota.
    change (45 =? 45)%N with true.
    cbv iota beta. cbn [digits_prefix]. rewrite Hd.
    destruct (digit_of_unit u (digits_prefix r)); [congruence | reflexivity ..].
Qed.

(** The text matched by the number pattern always parses to a number. *)
Lemma numberRegex_exec_number (t m : jsstring) :
  numberRegex_exec t = Some m -> isNaN (parseInt m) = false.
Proof.
  induction t as [|u r IH]; cbn [numberRegex_exec]; [discriminate|].
  destruct (is_digit u) eqn:Hu.
  - intros [= <-]. by apply parseInt_digit_head.
  - destruct (((u =? ch "+") || (u =? ch "-"))%N) eqn:Hs; cbn [andb]; [|exact IH].
    destruct r as [|v r']; cbn [starts_with]; [exact IH|].
    destruct (is_digit v) eqn:Hv; [|exact IH].
    intros [= <-]. cbn [takeWhile]. rewrite Hv.
    by apply parseInt_sign_head.
Qed.

(** A token that is a date also contains a number. *)
Lemma date_is_number (t : jsstring) :
  dateRegex_test t = true -> numberRegex_test t = true.
Proof.
  unfold dateRegex_test, numberRegex_test.
  destruct t as [|u r]; [discriminate|].
  cbn [takeWhile numberRegex_exec].
  destruct (is_digit u); [reflexivity | discriminate].
Qed.

Example parse_jane (nowIso : jsstring) :
  parseSalesMessage (utf16 "🛜 +1 Jane Doe 11/25 Kinetic 1G") (utf16 "Alice") nowIso =
  Some {| repName := utf16 "Alice";
          todayReported := Num 1;
          customerName := utf16 "Jane Doe";
          installDate := utf16 "11/25";
          provider := utf16 "Kinetic";
          speed := utf16 "1G";
          saleDate := before_T nowIso;
          timestamp := nowIso |}.
Proof. vm_compute. reflexivity. Qed.

Example parse_hello_team (nowIso : jsstring) :
  parseSalesMessage (utf16 "hello team") (utf16 "Bob") nowIso = None.
Proof. reflexivity. Qed.

Example elliott_tokens :
  tokenize Scenario.elliottText =
  [utf16 "📶+2"; utf16 "Elliott"; utf16 "Ezell"; utf16 "11/25";
   utf16 "Kinetic"; utf16 "2G"; utf16 "max"; utf16 "1-3"]
  /\ speedPattern_test (utf16 "1-3") = false
  /\ speedPattern_test (utf16 "max") = false
  /\ speedPattern_test (utf16 "2G") = true.
Proof. repeat split; vm_compute; reflexivity. Qed.

(** C2 — On the second message of its docstring the parser keeps the last
    token [1-3] as the speed, because neither [1-3] nor [max] matches the
    speed pattern and no other token is tried, and it takes every token
    between the date and that last token as the provider. *)
Theorem elliott_message_parse (nowIso : jsstring) :
  parseSalesMessage Scenario.elliottText (utf16 "Bob") nowIso =
  Some {| repName := utf16 "Bob";
          todayReported := Num 2;
          customerName := utf16 "Elliott Ezell";
          installDate := utf16 "11/25";
          provider := utf16 "Kinetic 2G max";
          speed := utf16 "1-3";
          saleDate := before_T nowIso;
          timestamp := nowIso |}.
Proof. vm_compute. reflexivity. Qed.

(** C3 — The date token of a parsed message is the first token of the
    whole message that matches the date pattern, and it stands after the
    count token.  The parser returns [null] exactly when the text is
    empty, has fewer than three tokens, has no token with a number, has no
    token matching the date pattern, or when the first token matching the
    date pattern is the count token itself, whatever follows it. *)
Theorem date_token_is_first_match (text senderName nowIso : jsstring) :
  let tokens := tokenize text in
  match parseSalesMessage text senderName nowIso with
  | Some ev =>
    exists countIndex dateIndex : nat,
      findIndex numberRegex_test tokens = Some countIndex
      /\ findIndex dateRegex_test tokens = Some dateIndex
      /\ (countIndex < dateIndex)%nat
      /\ tokens !! dateIndex = Some (installDate ev)
      /\ dateRegex_test (installDate ev) = true
      /\ (forall j t, (j < dateIndex)%nat -> tokens !! j = Some t ->
            dateRegex_test t = false)
  | None =>
    text = []
    \/ (length tokens < 3)%nat
    \/ findIndex numberRegex_test tokens = None
    \/ findIndex dateRegex_test tokens = None
    \/ (exists countIndex : nat,
          findIndex numberRegex_test tokens = Some countIndex
          /\ findIndex dateRegex_test tokens = Some countIndex)
  end.
Proof.
  intros tokens. unfold parseSalesMessage. fold tokens. clearbody tokens.
  destruct text as [|u0 text0]; [by left|].
  destruct (length tokens <? 3)%nat eqn:Hlen;
    [right; left; by apply Nat.ltb_lt|].
  destruct (findIndex numberRegex_test tokens) as [ci|] eqn:Hci;
    [|right; right; left; reflexivity].
  destruct (findIndex_Some _ _ _ Hci) as [(x & Hx & Hnum) Hbefore].
  unfold token at 1. rewrite Hx. cbn [default from_option id].
  unfold numberRegex_test in Hnum.
  destruct (numberRegex_exec x) as [m|] eqn:Hm; [|discriminate].
  rewrite (numberRegex_exec_number _ _ Hm).
  destruct (findIndex dateRegex_test tokens) as [di|] eqn:Hdi;
    [|right; right; right; left; reflexivity].
  destruct (findIndex_Some _ _ _ Hdi) as [(y & Hy & Hdate) Hfirst].
  destruct (di <=? ci)%nat eqn:Hle.
  - apply Nat.leb_le in Hle. do 4 right. exists ci. split; [reflexivity|].
    f_equal. destruct (decide (di = ci)) as [|Hne]; [assumption|].
    assert (di < ci)%nat as Hlt by lia.
    pose proof (Hbefore di y Hlt Hy) as Hno.
    pose proof (date_is_number y Hdate) as Hyes.
    fold (numberRegex_test y) in Hno. congruence.
  - apply Nat.leb_gt in Hle. exists ci, di. cbn [installDate].
    unfold token. rewrite Hy. cbn [default from_option id].
    repeat split; try assumption.
Qed.

(** In [11/25 Jane 11/26 Kinetic 1G] the count token is the token 0, the
    token 2 stands after it and matches the date pattern, and the parser
    returns [null]. *)
Lemma later_date_token_is_not_used :
  findIndex numberRegex_test (tokenize Scenario.twoDatesText) = Some 0%nat
  /\ tokenize Scenario.twoDatesText !! 2%nat = Some (utf16 "11/26")
  /\ dateRegex_test (utf16 "11/26") = true
  /\ parseSalesMessage Scenario.twoDatesText (utf16 "Bob") Scenario.now = None.
Proof. repeat split; vm_compute; reflexivity. Qed.

End ParserFacts.

(** ** More on the reconciler *)
Module ReconcilerMore.
Import JS Sheets JSFacts ReconcilerFacts Notions Range.

Lemma findIndex_found {A} (p : A -> bool) (l : list A) (x : A) :
  x ∈ l -> p x = true -> exists i, findIndex p l = Some i.
Proof.
  intros Hx Hp. destruct (findIndex p l) as [i|] eqn:E; [by exists i|].
  pose proof (proj1 (findIndex_None p l) E x Hx). congruence.
Qed.

Lemma insert_Permutation {A} (l : list A) (i : nat) (x y : A) :
  l !! i = Some x -> <[i := y]> l ≡ₚ y :: delete i l.
Proof.
  revert i. induction l as [|a l IH]; intros [|i] H; try discriminate.
  - reflexivity.
  - cbn in H |- *. rewrite (IH i H). apply Permutation_swap.
Qed.

(** Reporting again what the Today cell already holds adds nothing. *)
Lemma add_saleDelta_same (t : num) : add t (saleDelta t t) = t.
Proof.
  destruct t as [z|]; [|reflexivity].
  unfold saleDelta. cbn [sub lt]. rewrite Z.sub_diag. cbn.
  f_equal. lia.
Qed.

(** From a baseline 0 the increment is the report itself. *)
Lemma saleDelta_from_zero (t : num) : saleDelta t (Num 0) = t.
Proof.
  destruct t as [z|]; [|reflexivity].
  unfold saleDelta. cbn [sub lt]. rewrite Z.sub_0_r.
  destruct (z <? 0); reflexivity.
Qed.

Lemma byTodayDesc_numeric (x y : row) :
  numericToday x = true -> numericToday y = true ->
  byTodayDesc x y = Num (todayOf y - todayOf x).
Proof.
  unfold numericToday, todayOf, byTodayDesc.
  destruct (cellInt x 1), (cellInt y 1); try discriminate. reflexivity.
Qed.

Lemma sort_insert_today (x : row) (l : list row) :
  numericToday x = true ->
  Forall (fun r => numericToday r = true) l ->
  byTodayDescending l ->
  byTodayDescending (sort_insert byTodayDesc x l).
Proof.
  unfold byTodayDescending. intros Hx Hl.
  induction Hl as [|y l Hy Hl IH]; intros Hs; cbn [sort_insert].
  - repeat constructor.
  - apply StronglySorted_inv in Hs as [Hs Hall].
    rewrite (byTodayDesc_numeric x y Hx Hy). cbn [lt].
    destruct (Z.ltb_spec 0 (todayOf y - todayOf x)) as [Hlt | Hge].
    + constructor; [by apply IH|].
      rewrite sort_insert_perm. constructor; [lia | exact Hall].
    + constructor; [by constructor|].
      constructor; [lia|].
      eapply Forall_impl; [exact Hall|]. intros z Hz. cbn beta in *. lia.
Qed.

Lemma sort_today (l : list row) :
  Forall (fun r => numericToday r = true) l ->
  byTodayDescending (sort byTodayDesc l).
Proof.
  induction 1 as [|x l Hx Hl IH]; [constructor|].
  unfold sort in *. cbn [foldr]. apply sort_insert_today; try assumption.
  change (foldr (sort_insert byTodayDesc) [] l) with (sort byTodayDesc l).
  by rewrite sort_perm.
Qed.

Section WithLowerCase.
Variable toLowerCase : jsstring -> jsstring.

Local Abbreviation reconcile := (updateLeaderboardAndGetStandings toLowerCase).

Lemma numericToday_printed (a x2 x3 x4 b : jsstring) (t : num) :
  isNaN t = false -> safe t ->
  numericToday [a; toString t; x2; x3; x4; b] = true.
Proof.
  intros Ht Hsafe. unfold numericToday.
  rewrite (cellInt_printed a (toString t) x2 x3 x4 b 1 t eq_refl Hsafe), Ht.
  reflexivity.
Qed.

Lemma reconciledRows_numeric rows repName t currentDate nowIso :
  Forall (fun r => numericToday r = true) rows ->
  isNaN t = false -> safe t ->
  Forall (fun r => numericToday r = true)
    (reconciledRows toLowerCase rows repName t currentDate nowIso).
Proof.
  intros Hrows Ht Hsafe. unfold reconciledRows.
  destruct (findIndex _ rows) as [i|].
  - destruct (rows !! i) as [r|]; [|exact Hrows].
    apply Forall_insert; [exact Hrows|]. by apply numericToday_printed.
  - apply Forall_app. split; [exact Hrows|].
    constructor; [|constructor]. by apply numericToday_printed.
Qed.

(** X1 — When every Today cell of the leaderboard holds a number and the
    report is a number, all below 2^53, the rows are written in descending
    order of Today, and the standings returned are the Rep and Today cells
    of the written rows, in the written order. *)
Theorem written_rows_sorted sheets repName t d nowIso :
  Forall safeToday (dataRows (Leaderboard sheets)) ->
  isNaN t = false -> safe t ->
  byTodayDescending
    (dataRows (Leaderboard (reconcile sheets repName t d nowIso).1))
  /\ (reconcile sheets repName t d nowIso).2
     = map (fun r : row => (r !! 0%nat, r !! 1%nat))
         (dataRows (Leaderboard (reconcile sheets repName t d nowIso).1)).
Proof.
  intros Hrows Ht Hsafe. split; [|reflexivity].
  rewrite persisted_rows. apply sort_today.
  apply reconciledRows_numeric; try assumption.
  eapply Forall_impl; [exact Hrows|]. by intros r [Hnum _].
Qed.

(** X2 — Same day, numeric Today [p], and a report [z] that is not smaller:
    Week, Month and Lifetime each grow by exactly [z - p], and Today
    becomes [z].  The report and the four counters are below 2^51. *)
Theorem larger_report_adds_difference sheets repName (z p : Z) d nowIso i r :
  findIndex (isRep toLowerCase repName) (dataRows (Leaderboard sheets)) = Some i ->
  dataRows (Leaderboard sheets) !! i = Some r ->
  (or_else (r !! 5%nat) [] = [] \/
   take 10 (or_else (r !! 5%nat) []) = saleDate d) ->
  cellInt r 1 = Num p ->
  p <= z ->
  small (Num z) -> smallCounters r ->
  let entry :=
    [default [] (r !! 0%nat); toString (Num z);
     toString (add (cellInt r 2) (Num (z - p)));
     toString (add (cellInt r 3) (Num (z - p)));
     toString (add (cellInt r 4) (Num (z - p))); nowIso] in
  dataRows (Leaderboard (reconcile sheets repName (Num z) d nowIso).1)
    ≡ₚ <[i := entry]> (dataRows (Leaderboard sheets))
  /\ cellInt entry 1 = Num z
  /\ cellInt entry 2 = add (cellInt r 2) (Num (z - p))
  /\ cellInt entry 3 = add (cellInt r 3) (Num (z - p))
  /\ cellInt entry 4 = add (cellInt r 4) (Num (z - p)).
Proof.
  intros Hi Hr Hday Hp Hle Hz (H1 & H2 & H3 & H4) entry.
  assert (updatedRepRow r (Num z) (saleDate d) nowIso = entry) as Hrow.
  { unfold updatedRepRow, entry, saleDelta.
    pose proof (prevToday_cases r (saleDate d)) as Hc. cbv zeta in Hc.
    rewrite bool_decide_eq_false_2 in Hc by (intros [Ha Hb]; destruct Hday; tauto).
    rewrite Hc, Hp. cbn [sub lt].
    destruct (Z.ltb_spec (z - p) 0); [lia | reflexivity]. }
  assert (saleDelta (Num z) (Num p) = Num (z - p)) as Hd.
  { unfold saleDelta. cbn [sub lt].
    destruct (Z.ltb_spec (z - p) 0); [lia | reflexivity]. }
  rewrite Hp in H1.
  split; [rewrite <- Hrow; by apply persisted_existing|].
  repeat split; apply cellInt_printed; try reflexivity;
    rewrite <- ?Hd; auto using small_safe, small_delta_safe.
Qed.

(** X3 — A report that is not negative never lowers a counter: when the
    Today, Week, Month and Lifetime cells of the rep's row hold numbers,
    the written row holds Week, Month and Lifetime values that are at
    least the old ones.  The report and the four counters are below
    2^51. *)
Theorem nonneg_report_never_lowers sheets repName (z p w m l : Z) d nowIso i r :
  findIndex (isRep toLowerCase repName) (dataRows (Leaderboard sheets)) = Some i ->
  dataRows (Leaderboard sheets) !! i = Some r ->
  cellInt r 1 = Num p -> cellInt r 2 = Num w ->
  cellInt r 3 = Num m -> cellInt r 4 = Num l ->
  0 <= z ->
  small (Num z) -> smallCounters r ->
  exists (entry : row) (w' m' l' : Z),
    dataRows (Leaderboard (reconcile sheets repName (Num z) d nowIso).1)
      ≡ₚ <[i := entry]> (dataRows (Leaderboard sheets))
    /\ cellInt entry 2 = Num w' /\ w <= w'
    /\ cellInt entry 3 = Num m' /\ m <= m'
    /\ cellInt entry 4 = Num l' /\ l <= l'.
Proof.
  intros Hi Hr Hp Hw Hm Hl Hz Hsz (H1 & H2 & H3 & H4).
  pose proof (prevToday_small r (saleDate d) H1) as Hsq.
  assert (exists q, prevToday r (saleDate d) = Num q) as [q Hq].
  { pose proof (prevToday_cases r (saleDate d)) as Hc. cbv zeta in Hc.
    rewrite Hc. case_bool_decide; eauto. }
  destruct (nonneg_report_monotone r z q w 2 (saleDate d) Hz Hq Hw) as (w' & Hw' & Hww).
  destruct (nonneg_report_monotone r z q m 3 (saleDate d) Hz Hq Hm) as (m' & Hm' & Hmm).
  destruct (nonneg_report_monotone r z q l 4 (saleDate d) Hz Hq Hl) as (l' & Hl' & Hll).
  exists (updatedRepRow r (Num z) (saleDate d) nowIso), w', m', l'.
  split; [by apply persisted_existing|].
  unfold updatedRepRow.
  repeat split; try assumption.
  - rewrite <- Hw'. apply cellInt_printed; [reflexivity|].
    by apply small_delta_safe.
  - rewrite <- Hm'. apply cellInt_printed; [reflexivity|].
    by apply small_delta_safe.
  - rewrite <- Hl'. apply cellInt_printed; [reflexivity|].
    by apply small_delta_safe.
Qed.

(** X4 — The number of rows grows by one for a new rep and stays the same
    for a known one; the row of a known rep keeps the Rep cell as stored
    (the casing first seen), whatever the casing of the sender's name, and
    gets the current time as LastUpdate. *)
Theorem row_count_and_casing sheets repName t d nowIso :
  let rows := dataRows (Leaderboard sheets) in
  let written := dataRows (Leaderboard (reconcile sheets repName t d nowIso).1) in
  match findIndex (isRep toLowerCase repName) rows with
  | None => length written = S (length rows)
  | Some i =>
    length written = length rows
    /\ exists (r entry : row),
         rows !! i = Some r
         /\ written ≡ₚ <[i := entry]> rows
         /\ entry !! 0%nat = r !! 0%nat
         /\ entry !! 5%nat = Some nowIso
  end.
Proof.
  intros rows written.
  destruct (findIndex (isRep toLowerCase repName) rows) as [i|] eqn:Hi.
  - destruct (findIndex_Some _ _ _ Hi) as [(r & Hr & Hrep) _].
    pose proof (persisted_existing toLowerCase sheets repName t d nowIso i r Hi Hr) as Hperm.
    fold written in Hperm. fold rows in Hperm.
    split; [rewrite Hperm; apply length_insert|].
    exists r, (updatedRepRow r t (saleDate d) nowIso).
    split; [exact Hr|]. split; [exact Hperm|].
    destruct (isRep_name toLowerCase _ _ Hrep) as (name & Hn & Hdef).
    unfold updatedRepRow. rewrite Hdef, Hn. split; reflexivity.
  - unfold written. rewrite persisted_perm.
    rewrite (reconciledRows_new toLowerCase _ _ _ _ _ Hi).
    rewrite length_app. cbn. fold rows. lia.
Qed.

(** X5 — A new rep whose first report, below 2^53, is delivered twice
    (same day) is counted once in the leaderboard: after the two
    reconciliations the rows are the old rows and one row holding the
    report in all four counters.  The log, however, holds two rows
    more. *)
Theorem resent_first_report_counts_once sheets repName t d now1 now2 :
  findIndex (isRep toLowerCase repName) (dataRows (Leaderboard sheets)) = None ->
  repName <> [] ->
  (now1 = [] \/ take 10 now1 = saleDate d) ->
  safe t ->
  let once := (reconcile sheets repName t d now1).1 in
  let twice := (reconcile once repName t d now2).1 in
  dataRows (Leaderboard twice)
    ≡ₚ dataRows (Leaderboard sheets)
       ++ [[repName; toString t; toString t; toString t; toString t; now2]]
  /\ length (SalesLog twice) = S (S (length (SalesLog sheets))).
Proof.
  intros Hnone Hname Hday Hsafe once twice.
  set (rows := dataRows (Leaderboard sheets)) in *.
  set (new1 := newRepRow repName t now1).
  assert (dataRows (Leaderboard once) ≡ₚ rows ++ [new1]) as H1.
  { unfold once. rewrite persisted_perm.
    by rewrite (reconciledRows_new toLowerCase _ _ _ _ _ Hnone). }
  assert (isRep toLowerCase repName new1 = true) as Hrep1.
  { unfold isRep, new1, newRepRow. cbn [lookup list_lookup].
    destruct repName as [|u s]; [congruence|]. by apply str_eqb_eq. }
  assert (new1 ∈ dataRows (Leaderboard once)) as Hin.
  { rewrite H1. apply elem_of_app. right. left. }
  destruct (findIndex_found _ _ _ Hin Hrep1) as [i Hi].
  destruct (findIndex_Some _ _ _ Hi) as [(x & Hx & Hrepx) _].
  assert (x = new1) as ->.
  { assert (x ∈ rows ++ [new1]) as Hx'.
    { rewrite <- H1. apply list_elem_of_lookup. eauto. }
    apply elem_of_app in Hx' as [Hx' | Hx'].
    - pose proof (proj1 (findIndex_None _ _) Hnone x Hx'). congruence.
    - by apply list_elem_of_singleton in Hx'. }
  pose proof (persisted_existing toLowerCase once repName t d now2 i new1 Hi Hx) as H2.
  fold twice in H2.
  assert (updatedRepRow new1 t (saleDate d) now2
          = [repName; toString t; toString t; toString t; toString t; now2]) as Hrow.
  { unfold updatedRepRow.
    assert (prevToday new1 (saleDate d) = t) as ->.
    { pose proof (prevToday_cases new1 (saleDate d)) as Hc. cbv zeta in Hc.
      rewrite Hc. unfold new1, newRepRow at 1 2. cbn [lookup list_lookup].
      rewrite bool_decide_eq_false_2.
      - by apply cellInt_printed.
      - intros [Hne Hdiff]. destruct now1 as [|u s]; [by apply Hne|].
        cbn [or_else] in Hdiff. destruct Hday; [discriminate | tauto]. }
    unfold new1, newRepRow.
    pose proof (fun k H => cellInt_printed repName (toString t) (toString t)
                  (toString t) (toString t) now1 k t H Hsafe) as Hcell.
    rewrite (Hcell 2%nat eq_refl), (Hcell 3%nat eq_refl), (Hcell 4%nat eq_refl).
    rewrite add_saleDelta_same. reflexivity. }
  rewrite Hrow in H2. split.
  - rewrite H2, (insert_Permutation _ _ _ _ Hx).
    pose proof (delete_Permutation _ _ _ Hx) as Hdel.
    rewrite H1 in Hdel at 1.
    assert (new1 :: rows ≡ₚ new1 :: delete i (dataRows (Leaderboard once))) as Hc.
    { rewrite <- Hdel. apply Permutation_cons_append. }
    apply Permutation_cons_inv in Hc. rewrite <- Hc.
    apply Permutation_cons_append.
  - unfold twice, once. cbn [updateLeaderboardAndGetStandings fst SalesLog].
    rewrite !length_app. cbn. lia.
Qed.

End WithLowerCase.

Lemma written_rows_sorted_witness :
  isNaN (Num 5) = false
  /\ byTodayDescending
       (dataRows (Leaderboard (updateLeaderboardAndGetStandings Host.asciiLowerCase
          Scenario.board (utf16 "bob") (Num 5) Scenario.details Scenario.now).1)).
Proof.
  split; [reflexivity|].
  apply (written_rows_sorted Host.asciiLowerCase Scenario.board (utf16 "bob")
           (Num 5) Scenario.details Scenario.now);
    [|reflexivity | vm_compute; repeat split].
  repeat constructor; vm_compute; repeat split.
Defined.

Lemma larger_report_adds_difference_witness :
  (3 <= 5)
  /\ dataRows (Leaderboard (updateLeaderboardAndGetStandings Host.asciiLowerCase
        Scenario.board (utf16 "bob") (Num 5) Scenario.details Scenario.now).1)
     ≡ₚ <[1%nat := [utf16 "Bob"; utf16 "5"; utf16 "12"; utf16 "12"; utf16 "12";
                    Scenario.now]]> (dataRows (Leaderboard Scenario.board)).
Proof.
  split; [lia|].
  apply (larger_report_adds_difference Host.asciiLowerCase Scenario.board
           (utf16 "bob") 5 3 Scenario.details Scenario.now 1%nat Scenario.bobRow);
    [reflexivity | reflexivity | right; reflexivity | reflexivity | lia
    | vm_compute; repeat split | vm_compute; repeat split].
Defined.

Lemma nonneg_report_never_lowers_witness :
  exists (entry : row) (w' m' l' : Z),
    dataRows (Leaderboard (updateLeaderboardAndGetStandings Host.asciiLowerCase
      Scenario.board (utf16 "bob") (Num 1) Scenario.details Scenario.now).1)
      ≡ₚ <[1%nat := entry]> (dataRows (Leaderboard Scenario.board))
    /\ cellInt entry 2 = Num w' /\ 10 <= w'
    /\ cellInt entry 3 = Num m' /\ 10 <= m'
    /\ cellInt entry 4 = Num l' /\ 10 <= l'.
Proof.
  apply (nonneg_report_never_lowers Host.asciiLowerCase Scenario.board
           (utf16 "bob") 1 3 10 10 10 Scenario.details Scenario.now 1%nat
           Scenario.bobRow); try reflexivity; [lia | ..];
    vm_compute; repeat split.
Defined.

Lemma resent_first_report_counts_once_witness :
  findIndex (isRep Host.asciiLowerCase (utf16 "Alice"))
    (dataRows (Leaderboard Scenario.board)) = None
  /\ dataRows (Leaderboard (updateLeaderboardAndGetStandings Host.asciiLowerCase
       (updateLeaderboardAndGetStandings Host.asciiLowerCase Scenario.board
          (utf16 "Alice") (Num 2) Scenario.details Scenario.now).1
       (utf16 "Alice") (Num 2) Scenario.details Scenario.nextNight).1)
     ≡ₚ dataRows (Leaderboard Scenario.board)
        ++ [[utf16 "Alice"; utf16 "2"; utf16 "2"; utf16 "2"; utf16 "2";
             Scenario.nextNight]].
Proof.
  split; [reflexivity|].
  apply (resent_first_report_counts_once Host.asciiLowerCase Scenario.board
           (utf16 "Alice") (Num 2) Scenario.details Scenario.now Scenario.nextNight);
    [reflexivity | discriminate | right; reflexivity | vm_compute; repeat split].
Defined.

End ReconcilerMore.

(** ** More on the nightly reset *)
Module ResetMore.
Import JS Sheets JSFacts ReconcilerFacts ResetFacts ReconcilerMore Notions Range.

Lemma safe_zero : safe (Num 0).
Proof. unfold safe, below. lia. Qed.

(** A second reset of a row overrides the first one, when Week, Month and
    Lifetime are in the safe range. *)
Lemma resetRow_twice (isMonday : bool) (now1 now2 : jsstring) (r : row) :
  safeTotals r ->
  resetRow isMonday now2 (resetRow isMonday now1 r) = resetRow isMonday now2 r.
Proof.
  intros (H2 & H3 & H4).
  unfold resetRow at 2 3.
  destruct (or_else (r !! 0%nat) []) as [|u s] eqn:E.
  - unfold resetRow. by rewrite E.
  - unfold resetRow. cbn [lookup list_lookup or_else].
    assert (safe (if isMonday then Num 0 else cellInt r 2)) as H2'
      by (destruct isMonday; [apply safe_zero | exact H2]).
    pose proof (fun x k H => cellInt_printed (u :: s) (toString (Num 0))
      (toString (if isMonday then Num 0 else cellInt r 2))
      (toString (cellInt r 3)) (toString (cellInt r 4)) now1 k x H) as Hcell.
    rewrite (Hcell _ 2%nat eq_refl H2'), (Hcell _ 3%nat eq_refl H3),
      (Hcell _ 4%nat eq_refl H4).
    destruct isMonday; reflexivity.
Qed.

Lemma resetRow_rep (isMonday : bool) (nowIso : jsstring) (r : row) :
  or_else (resetRow isMonday nowIso r !! 0%nat) [] = or_else (r !! 0%nat) [].
Proof.
  unfold resetRow. destruct (or_else (r !! 0%nat) []) as [|u s] eqn:E;
    [exact E | reflexivity].
Qed.

Section WithGetDay.
Variable getDay : jsstring -> num.

(** X6 — When the Week, Month and Lifetime cells of every row are below
    2^53, resetting again for the same date gives the state of a single
    reset at the later time: the second reset changes nothing but
    LastUpdate, and with the same clock value nothing at all. *)
Theorem reset_twice sheets currentDateIso now1 now2 :
  Forall safeTotals (dataRows (Leaderboard sheets)) ->
  resetTodayAndMaybeWeek getDay
    (resetTodayAndMaybeWeek getDay sheets currentDateIso now1)
    currentDateIso now2
  = resetTodayAndMaybeWeek getDay sheets currentDateIso now2.
Proof.
  intros Hsafe.
  unfold resetTodayAndMaybeWeek. cbn [Leaderboard SalesLog].
  f_equal. f_equal.
  change (dataRows (?h :: ?rows)) with rows.
  rewrite map_map.
  induction Hsafe as [|r rows Hr Hrows IH]; [reflexivity|].
  cbn [map]. by rewrite (resetRow_twice _ _ _ _ Hr), IH.
Qed.

(** X7 — The reset leaves the log as it is, keeps the header (the default
    header on an empty sheet), the number of rows and, row by row, the Rep
    cell. *)
Theorem reset_frame sheets currentDateIso nowIso :
  let out := resetTodayAndMaybeWeek getDay sheets currentDateIso nowIso in
  SalesLog out = SalesLog sheets
  /\ head (Leaderboard out) = Some (header (Leaderboard sheets))
  /\ length (dataRows (Leaderboard out)) = length (dataRows (Leaderboard sheets))
  /\ map (fun r : row => or_else (r !! 0%nat) []) (dataRows (Leaderboard out))
     = map (fun r : row => or_else (r !! 0%nat) []) (dataRows (Leaderboard sheets)).
Proof.
  intros out. split; [reflexivity|]. split; [reflexivity|].
  unfold out. rewrite reset_rows. split; [apply length_map|].
  rewrite map_map. apply map_ext. intros r. apply resetRow_rep.
Qed.

End WithGetDay.

Section ResetThenReport.
Variable toLowerCase : jsstring -> jsstring.
Variable getDay : jsstring -> num.

Lemma isRep_resetRow repName (isMonday : bool) (nowIso : jsstring) (r : row) :
  isRep toLowerCase repName (resetRow isMonday nowIso r)
  = isRep toLowerCase repName r.
Proof.
  unfold resetRow. destruct (r !! 0%nat) as [[|u s]|] eqn:E;
    cbn [or_else]; try reflexivity.
  unfold isRep. rewrite E. reflexivity.
Qed.

Lemma findIndex_map {A B} (f : A -> B) (p : B -> bool) (q : A -> bool) (l : list A) :
  (forall x, p (f x) = q x) -> findIndex p (map f l) = findIndex q l.
Proof.
  intros H. induction l as [|x l IH]; [reflexivity|].
  cbn [map findIndex]. by rewrite H, IH.
Qed.

(** X8 — After a reset, the next report of a known rep is added in full:
    whatever the date of the sale, the baseline is 0, so Week, Month and
    Lifetime each grow by [todayReported] from the values that the reset
    left in the row.  The report and the counters of the row are below
    2^51. *)
Theorem report_after_reset sheets resetDate resetTime repName t d nowIso i r :
  findIndex (isRep toLowerCase repName) (dataRows (Leaderboard sheets)) = Some i ->
  dataRows (Leaderboard sheets) !! i = Some r ->
  small t -> smallCounters r ->
  let afterReset := resetTodayAndMaybeWeek getDay sheets resetDate resetTime in
  exists r1 : row,
    dataRows (Leaderboard afterReset) !! i = Some r1
    /\ let entry :=
         [default [] (r !! 0%nat); toString t; toString (add (cellInt r1 2) t);
          toString (add (cellInt r1 3) t); toString (add (cellInt r1 4) t);
          nowIso] in
       dataRows (Leaderboard
         (updateLeaderboardAndGetStandings toLowerCase afterReset repName t d
            nowIso).1)
         ≡ₚ <[i := entry]> (dataRows (Leaderboard afterReset))
       /\ cellInt entry 1 = t
       /\ cellInt entry 2 = add (cellInt r1 2) t
       /\ cellInt entry 3 = add (cellInt r1 3) t
       /\ cellInt entry 4 = add (cellInt r1 4) t.
Proof.
  intros Hi Hr Ht (H1 & H2 & H3 & H4) afterReset.
  set (b := strict_eq (getDay resetDate) (Num 1)) in *.
  set (week0 := if b then Num 0 else cellInt r 2).
  assert (small week0) as Hw0
    by (unfold week0; destruct b; [apply small_zero | exact H2]).
  assert (dataRows (Leaderboard afterReset)
          = map (resetRow b resetTime) (dataRows (Leaderboard sheets))) as Hrows
    by apply reset_rows.
  destruct (findIndex_Some _ _ _ Hi) as [(x & Hx & Hrep) _].
  rewrite Hr in Hx. injection Hx as <-.
  destruct (isRep_name toLowerCase _ _ Hrep) as (name & Hn & Hdef).
  assert (name <> []) as Hne.
  { unfold isRep in Hrep. rewrite Hn in Hrep. by destruct name. }
  set (r1 := resetRow b resetTime r).
  assert (r1 = [name; toString (Num 0); toString week0; toString (cellInt r 3);
                toString (cellInt r 4); resetTime]) as Hr1.
  { unfold r1, resetRow. rewrite Hn. destruct name as [|u s]; [congruence|].
    reflexivity. }
  assert (findIndex (isRep toLowerCase repName) (dataRows (Leaderboard afterReset))
          = Some i) as Hi1.
  { rewrite Hrows, <- Hi. apply findIndex_map. intros y. apply isRep_resetRow. }
  assert (dataRows (Leaderboard afterReset) !! i = Some r1) as Hlook.
  { rewrite Hrows. unfold r1.
    change (map ?f ?l) with (f <$> l). by rewrite list_lookup_fmap, Hr. }
  pose proof (fun x k H Hs => cellInt_printed name (toString (Num 0))
    (toString week0) (toString (cellInt r 3)) (toString (cellInt r 4))
    resetTime k x H Hs) as Hcell.
  assert (cellInt r1 1 = Num 0) as E1
    by (rewrite Hr1; apply (Hcell _ 1%nat eq_refl), safe_zero).
  assert (cellInt r1 2 = week0) as E2
    by (rewrite Hr1; by apply (Hcell _ 2%nat eq_refl), small_safe).
  assert (cellInt r1 3 = cellInt r 3) as E3
    by (rewrite Hr1; by apply (Hcell _ 3%nat eq_refl), small_safe).
  assert (cellInt r1 4 = cellInt r 4) as E4
    by (rewrite Hr1; by apply (Hcell _ 4%nat eq_refl), small_safe).
  exists r1. split; [exact Hlook|]. intros entry. split.
  - rewrite (persisted_existing toLowerCase afterReset repName t d nowIso i r1 Hi1 Hlook).
    assert (updatedRepRow r1 t (saleDate d) nowIso = entry) as ->; [|reflexivity].
    unfold updatedRepRow, entry.
    assert (prevToday r1 (saleDate d) = Num 0) as ->.
    { pose proof (prevToday_cases r1 (saleDate d)) as Hc. cbv zeta in Hc.
      rewrite Hc. case_bool_decide; [reflexivity | exact E1]. }
    rewrite saleDelta_from_zero.
    assert (default [] (r1 !! 0%nat) = default [] (r !! 0%nat)) as ->
      by (rewrite Hr1, Hdef; reflexivity).
    reflexivity.
  - repeat split; apply cellInt_printed; try reflexivity;
      rewrite ?E2, ?E3, ?E4; auto using small_safe, small_add_safe.
Qed.

End ResetThenReport.

Lemma reset_twice_witness :
  resetTodayAndMaybeWeek Host.utcGetDay
    (resetTodayAndMaybeWeek Host.utcGetDay Scenario.board (utf16 "2025-11-25")
       Scenario.now)
    (utf16 "2025-11-25") Scenario.nextNight
  = resetTodayAndMaybeWeek Host.utcGetDay Scenario.board (utf16 "2025-11-25")
      Scenario.nextNight.
Proof.
  apply (reset_twice Host.utcGetDay Scenario.board (utf16 "2025-11-25")
           Scenario.now Scenario.nextNight).
  repeat constructor; vm_compute; repeat split.
Defined.

Lemma report_after_reset_witness :
  findIndex (isRep Host.asciiLowerCase (utf16 "bob"))
    (dataRows (Leaderboard Scenario.board)) = Some 1%nat
  /\ exists r1 : row,
      dataRows (Leaderboard
        (resetTodayAndMaybeWeek Host.utcGetDay Scenario.board
           (utf16 "2025-11-24") Scenario.now)) !! 1%nat = Some r1
      /\ dataRows (Leaderboard
           (updateLeaderboardAndGetStandings Host.asciiLowerCase
              (resetTodayAndMaybeWeek Host.utcGetDay Scenario.board
                 (utf16 "2025-11-24") Scenario.now)
              (utf16 "bob") (Num 2) Scenario.details Scenario.nextNight).1)
         ≡ₚ <[1%nat := [utf16 "Bob"; toString (Num 2);
                        toString (add (cellInt r1 2) (Num 2));
                        toString (add (cellInt r1 3) (Num 2));
                        toString (add (cellInt r1 4) (Num 2));
                        Scenario.nextNight]]>
              (dataRows (Leaderboard
                 (resetTodayAndMaybeWeek Host.utcGetDay Scenario.board
                    (utf16 "2025-11-24") Scenario.now))).
Proof.
  split; [reflexivity|].
  assert (small (Num 2)) as Ht by (vm_compute; repeat split).
  assert (smallCounters Scenario.bobRow) as Hc by (vm_compute; repeat split).
  destruct (report_after_reset Host.asciiLowerCase Host.utcGetDay Scenario.board
              (utf16 "2025-11-24") Scenario.now (utf16 "bob") (Num 2)
              Scenario.details Scenario.nextNight 1%nat Scenario.bobRow
              eq_refl eq_refl Ht Hc) as (r1 & Hlook & Hperm & _).
  exists r1. split; [exact Hlook | exact Hperm].
Defined.

End ResetMore.

(** ** More on the daily summary *)
Module SummaryMore.
Import JS Sheets JSFacts Props SummaryFacts Notions.

Lemma str_eqb_sym (s t : jsstring) : str_eqb s t = str_eqb t s.
Proof.
  destruct (str_eqb t s) eqn:E.
  - apply str_eqb_eq in E. by apply str_eqb_eq.
  - apply str_eqb_neq in E. apply str_eqb_neq. congruence.
Qed.

(** The summary is the sorted result of counting the names of the counted
    rows one by one. *)
Lemma summary_as_fold sheets dateIso :
  let names := map repOf (List.filter (counted dateIso) (drop 1 (SalesLog sheets))) in
  getDailySummary sheets dateIso =
  {| perRep := sort byCountDesc (fold_left bump names ([], 0)).1;
     total := (fold_left bump names ([], 0)).2 |}.
Proof.
  intros names. unfold getDailySummary, names.
  destruct (SalesLog sheets) as [|h [|r rows]]; try reflexivity.
  change (length (h :: r :: rows) <=? 1)%nat with false. cbv iota.
  rewrite fold_tally. destruct (fold_left bump _ _) as [m t]. reflexivity.
Qed.

Lemma summary_total sheets dateIso :
  total (getDailySummary sheets dateIso) =
  Z.of_nat (length (List.filter (counted dateIso) (drop 1 (SalesLog sheets)))).
Proof.
  rewrite summary_as_fold. cbn [total].
  rewrite bump_total, length_map. cbn [snd]. lia.
Qed.

Lemma counts_get_set m k v k' :
  counts_get (counts_set m k v) k' =
  if str_eqb k k' then Some v else counts_get m k'.
Proof.
  unfold counts_get.
  induction m as [|[k0 v0] m IH]; cbn [counts_set find fst snd].
  - destruct (str_eqb k k'); reflexivity.
  - destruct (str_eqb k0 k) eqn:E; cbn [find fst snd].
    + apply str_eqb_eq in E as ->. destruct (str_eqb k k'); reflexivity.
    + destruct (str_eqb k0 k') eqn:E'.
      * apply str_eqb_eq in E' as ->. rewrite str_eqb_sym, E. reflexivity.
      * exact IH.
Qed.

Lemma occurrences_cons k k' names :
  occurrences k (k' :: names) =
  (if str_eqb k' k then 1 else 0) + occurrences k names.
Proof.
  unfold occurrences. cbn [List.filter]. rewrite (str_eqb_sym k k').
  destruct (str_eqb k' k); cbn [length]; lia.
Qed.

Lemma bump_get names acc k :
  default 0 (counts_get (fold_left bump names acc).1 k) =
  default 0 (counts_get acc.1 k) + occurrences k names.
Proof.
  revert acc. induction names as [|k' names IH]; intros acc; cbn [fold_left].
  - unfold occurrences. cbn. lia.
  - rewrite IH, occurrences_cons. cbn [bump fst]. rewrite counts_get_set.
    destruct (str_eqb k' k) eqn:E; cbn [default from_option id]; [|lia].
    apply str_eqb_eq in E as ->. lia.
Qed.

Lemma add_name_elem seen k x : x ∈ add_name seen k <-> x ∈ seen \/ x = k.
Proof.
  unfold add_name. case_bool_decide as H.
  - split; [by left | intros [?| ->]; assumption].
  - rewrite elem_of_app, list_elem_of_singleton. reflexivity.
Qed.

Lemma add_name_NoDup seen k : NoDup seen -> NoDup (add_name seen k).
Proof.
  intros Hn. unfold add_name. case_bool_decide as H; [exact Hn|].
  apply NoDup_app. split; [exact Hn|]. split.
  - intros x Hx Hk. apply list_elem_of_singleton in Hk as ->. tauto.
  - apply NoDup_singleton.
Qed.

Lemma fold_add_name_elem names seen x :
  x ∈ fold_left add_name names seen <-> x ∈ seen \/ x ∈ names.
Proof.
  revert seen. induction names as [|k names IH]; intros seen; cbn [fold_left].
  - split; [by left | intros [?|H]; [assumption | inversion H]].
  - rewrite IH, add_name_elem, elem_of_cons. tauto.
Qed.

Lemma fold_add_name_NoDup names seen :
  NoDup seen -> NoDup (fold_left add_name names seen).
Proof.
  revert seen. induction names as [|k names IH]; intros seen Hn; [exact Hn|].
  cbn [fold_left]. by apply IH, add_name_NoDup.
Qed.

Lemma counts_get_elem (m : list (jsstring * Z)) k c :
  NoDup (map fst m) -> (k, c) ∈ m -> counts_get m k = Some c.
Proof.
  unfold counts_get.
  induction m as [|[k0 v0] m IH]; intros Hn Hin; [inversion Hin|].
  cbn [map fst] in Hn. apply NoDup_cons in Hn as [Hk0 Hn].
  cbn [find fst snd]. apply elem_of_cons in Hin as [[= -> ->] | Hin].
  - assert (str_eqb k0 k0 = true) as -> by by apply str_eqb_eq.
    reflexivity.
  - destruct (str_eqb k0 k) eqn:E; [|by apply IH].
    apply str_eqb_eq in E as ->. exfalso. apply Hk0.
    change (map fst m) with (fst <$> m). apply list_elem_of_fmap.
    by exists (k, c).
Qed.

Lemma occurrences_pos k names : k ∈ names -> 0 < occurrences k names.
Proof.
  induction names as [|k' names IH]; intros H; [inversion H|].
  rewrite occurrences_cons. apply elem_of_cons in H as [-> | H].
  - assert (str_eqb k' k' = true) as -> by by apply str_eqb_eq.
    unfold occurrences. lia.
  - specialize (IH H). destruct (str_eqb k' k); lia.
Qed.

(** X9 — In the summary every name appears once, with the number of
    counted rows of the log that carry it, which is at least 1; and every
    name of a counted row appears. *)
Theorem summary_counts_per_rep sheets dateIso :
  let names := map repOf (List.filter (counted dateIso) (drop 1 (SalesLog sheets))) in
  let s := getDailySummary sheets dateIso in
  NoDup (map fst (perRep s))
  /\ (forall k c, (k, c) ∈ perRep s ->
        k ∈ names /\ c = occurrences k names /\ 0 < c)
  /\ (forall k, k ∈ names -> (k, occurrences k names) ∈ perRep s).
Proof.
  intros names s. unfold s. rewrite summary_as_fold. fold names. cbn [perRep].
  set (m := (fold_left bump names ([], 0)).1).
  assert (map fst m = first_seen names) as Hkeys.
  { unfold m. rewrite bump_keys. reflexivity. }
  assert (NoDup (map fst m)) as Hnd.
  { rewrite Hkeys. apply fold_add_name_NoDup, NoDup_nil_2. }
  assert (forall k, k ∈ map fst m <-> k ∈ names) as Hin.
  { intros k. rewrite Hkeys. unfold first_seen. rewrite fold_add_name_elem.
    split; [intros [H|H]; [inversion H | exact H] | by right]. }
  assert (forall k c, (k, c) ∈ m -> c = occurrences k names) as Hocc.
  { intros k c Hkc.
    pose proof (bump_get names ([], 0) k) as Hg. fold m in Hg.
    rewrite (counts_get_elem m k c Hnd Hkc) in Hg. cbn in Hg. lia. }
  pose proof (sort_perm byCountDesc m) as Hperm.
  split; [|split].
  - change (map fst ?l) with (fst <$> l). rewrite Hperm. exact Hnd.
  - intros k c Hkc. rewrite Hperm in Hkc.
    assert (k ∈ names) as Hk.
    { apply Hin. change (map fst m) with (fst <$> m).
      apply list_elem_of_fmap. by exists (k, c). }
    split; [exact Hk|]. split; [by apply Hocc|].
    rewrite (Hocc k c Hkc). by apply occurrences_pos.
  - intros k Hk. rewrite Hperm.
    apply Hin in Hk. change (map fst m) with (fst <$> m) in Hk.
    apply list_elem_of_fmap in Hk as ([k' c] & -> & Hkc). cbn [fst].
    by rewrite <- (Hocc k' c Hkc).
Qed.

Section AfterASale.
Variable toLowerCase : jsstring -> jsstring.

(** X10 — A reconciled sale of a sender with a name is counted once in the
    summary of its sale date and in no other, provided the log already
    holds its header row. *)
Theorem sale_counted_in_summary sheets repName t d nowIso :
  repName <> [] -> saleDate d <> [] -> SalesLog sheets <> [] ->
  let out := (updateLeaderboardAndGetStandings toLowerCase sheets repName t d nowIso).1 in
  total (getDailySummary out (saleDate d))
    = total (getDailySummary sheets (saleDate d)) + 1
  /\ (forall other, other <> saleDate d ->
        total (getDailySummary out other) = total (getDailySummary sheets other)).
Proof.
  intros Hname Hdate Hlog out.
  assert (forall dateIso,
    List.filter (counted dateIso) (drop 1 (SalesLog out))
    = List.filter (counted dateIso) (drop 1 (SalesLog sheets))
      ++ (if str_eqb (saleDate d) dateIso
          then [saleLogRow repName t d] else [])) as Hfilter.
  { intros dateIso. unfold out. cbn [updateLeaderboardAndGetStandings fst SalesLog].
    destruct (SalesLog sheets) as [|h log]; [congruence|].
    cbn [app drop]. rewrite !drop_0, List.filter_app. f_equal.
    cbn [List.filter]. unfold counted, saleLogRow. cbn [lookup list_lookup or_else].
    destruct repName as [|u s]; [congruence|].
    destruct (saleDate d) as [|v w] eqn:E; [congruence|].
    cbn [truthy andb or_else]. destruct (str_eqb (v :: w) dateIso); reflexivity. }
  split.
  - rewrite !summary_total, Hfilter.
    assert (str_eqb (saleDate d) (saleDate d) = true) as -> by by apply str_eqb_eq.
    rewrite length_app. cbn [length]. lia.
  - intros other Hother. rewrite !summary_total, Hfilter.
    assert (str_eqb (saleDate d) other = false) as ->
      by (apply str_eqb_neq; congruence).
    by rewrite app_nil_r.
Qed.

(** X11 — The reconciler never writes a header to the log: on an empty log
    sheet the row of the first sale becomes the first row, which the
    summary skips as the header, so that sale is in no summary. *)
Theorem first_sale_on_empty_log_not_counted sheets repName t d nowIso dateIso :
  SalesLog sheets = [] ->
  let out := (updateLeaderboardAndGetStandings toLowerCase sheets repName t d nowIso).1 in
  SalesLog out = [saleLogRow repName t d]
  /\ getDailySummary out dateIso = {| perRep := []; total := 0 |}.
Proof.
  intros Hlog out. unfold out.
  cbn [updateLeaderboardAndGetStandings fst SalesLog]. rewrite Hlog.
  split; reflexivity.
Qed.

End AfterASale.

Lemma sale_counted_in_summary_witness :
  total (getDailySummary
    (updateLeaderboardAndGetStandings Host.asciiLowerCase Scenario.board
       (utf16 "Alice") (Num 2) Scenario.details Scenario.now).1
    (utf16 "2025-11-25"))
  = total (getDailySummary Scenario.board (utf16 "2025-11-25")) + 1.
Proof.
  apply (sale_counted_in_summary Host.asciiLowerCase Scenario.board
           (utf16 "Alice") (Num 2) Scenario.details Scenario.now);
    discriminate.
Defined.

Lemma first_sale_on_empty_log_not_counted_witness :
  getDailySummary
    (updateLeaderboardAndGetStandings Host.asciiLowerCase
       {| Leaderboard := []; SalesLog := [] |}
       (utf16 "Alice") (Num 2) Scenario.details Scenario.now).1
    (utf16 "2025-11-25")
  = {| perRep := []; total := 0 |}.
Proof.
  apply (first_sale_on_empty_log_not_counted Host.asciiLowerCase
           {| Leaderboard := []; SalesLog := [] |}
           (utf16 "Alice") (Num 2) Scenario.details Scenario.now
           (utf16 "2025-11-25")).
  reflexivity.
Defined.

End SummaryMore.

(** ** The server *)
Module ServerFacts.
Import JS Sheets JSFacts ReconcilerFacts Notions Server.

Section WithLowerCase.
Variable toLowerCase : jsstring -> jsstring.




End WithLowerCase.
End ServerFacts.

(** ** More on the parser *)
Module ParserMore.
Import JS JSFacts Bot Notions ParserFacts.

(** *** The tokenizer *)

Lemma split_ws_cons (s : jsstring) : exists h tl, split_ws s = h :: tl.
Proof.
  induction s as [|u r (h & tl & IH)]; cbn [split_ws]; [eauto|].
  rewrite IH. destruct (is_ws u); [destruct (starts_with is_ws r)|]; eauto.
Qed.

Lemma split_ws_noWs (s : jsstring) :
  Forall (fun t => noWs t = true) (split_ws s).
Proof.
  induction s as [|u r IH]; cbn [split_ws]; [by repeat constructor|].
  destruct (is_ws u) eqn:Hu.
  - destruct (starts_with is_ws r); [exact IH | by constructor].
  - destruct (split_ws r) as [|t ts]; [by repeat constructor; cbn; rewrite Hu|].
    apply Forall_cons in IH as [Ht Hts]. constructor; [|exact Hts].
    unfold noWs in *. cbn [forallb]. by rewrite Hu, Ht.
Qed.

Lemma split_ws_concat (s : jsstring) :
  concat (split_ws s) = List.filter (fun u => negb (is_ws u)) s.
Proof.
  induction s as [|u r IH]; cbn [split_ws List.filter]; [reflexivity|].
  destruct (is_ws u) eqn:Hu; cbn [negb].
  - destruct (starts_with is_ws r); [exact IH | exact IH].
  - destruct (split_ws_cons r) as (t & ts & E). rewrite E in *.
    cbn [concat app] in *. by rewrite IH.
Qed.

Lemma split_ws_Forall (P : N -> Prop) (s : jsstring) :
  Forall P s -> Forall (Forall P) (split_ws s).
Proof.
  induction 1 as [|u r Hu Hr IH]; cbn [split_ws]; [by repeat constructor|].
  destruct (is_ws u).
  - destruct (starts_with is_ws r); [exact IH | by constructor].
  - destruct (split_ws r) as [|t ts]; [by repeat constructor|].
    apply Forall_cons in IH as [Ht Hts]. by repeat constructor.
Qed.

Lemma dropWhile_Forall {A} (P : A -> Prop) (p : A -> bool) (l : list A) :
  Forall P l -> Forall P (dropWhile p l).
Proof.
  induction 1 as [|x l Hx Hl IH]; cbn [dropWhile]; [constructor|].
  destruct (p x); [exact IH | by constructor].
Qed.

Lemma dropWhile_filter {A} (p : A -> bool) (l : list A) :
  List.filter (fun u => negb (p u)) (dropWhile p l)
  = List.filter (fun u => negb (p u)) l.
Proof.
  induction l as [|x l IH]; [reflexivity|]. cbn [dropWhile List.filter].
  destruct (p x) eqn:E; cbn [negb List.filter]; [exact IH | by rewrite E].
Qed.

Lemma dropWhile_head {A} (p : A -> bool) (l : list A) :
  match dropWhile p l with [] => True | x :: _ => p x = false end.
Proof.
  induction l as [|x l IH]; cbn [dropWhile]; [exact I|].
  destruct (p x) eqn:E; [exact IH | exact E].
Qed.

Lemma dropWhile_app_stop {A} (p : A -> bool) (l k : list A) (x : A) :
  p x = false -> dropWhile p (l ++ x :: k) = dropWhile p l ++ x :: k.
Proof.
  intros Hx. induction l as [|y l IH]; cbn [app dropWhile].
  - by rewrite Hx.
  - destruct (p y); [exact IH | reflexivity].
Qed.

Lemma trim_Forall (P : N -> Prop) (s : jsstring) : Forall P s -> Forall P (trim s).
Proof.
  intros H. unfold trim.
  apply Forall_rev, dropWhile_Forall, Forall_rev, dropWhile_Forall, H.
Qed.

Lemma trim_filter (s : jsstring) :
  List.filter (fun u => negb (is_ws u)) (trim s)
  = List.filter (fun u => negb (is_ws u)) s.
Proof.
  unfold trim.
  rewrite List.filter_rev, dropWhile_filter, List.filter_rev, rev_involutive.
  apply dropWhile_filter.
Qed.

(** A trimmed text is empty or starts with a character that is not white
    space. *)
Lemma trim_start (s : jsstring) :
  trim s = [] \/ starts_with is_ws (trim s) = false.
Proof.
  unfold trim. pose proof (dropWhile_head is_ws s) as H.
  destruct (dropWhile is_ws s) as [|x a]; [by left|]. right.
  cbn [rev]. rewrite (dropWhile_app_stop _ _ [] _ H), rev_app_distr.
  cbn. exact H.
Qed.

(** And it does not end with white space. *)
Lemma trim_end (s : jsstring) :
  match last (trim s) with Some u => is_ws u = false | None => True end.
Proof.
  unfold trim. pose proof (dropWhile_head is_ws (rev (dropWhile is_ws s))) as H.
  destruct (dropWhile is_ws (rev (dropWhile is_ws s))) as [|x a]; [exact I|].
  cbn [rev]. by rewrite last_snoc.
Qed.

Lemma split_ws_words (s : jsstring) :
  match last s with Some u => is_ws u = false | None => True end ->
  forall h tl, split_ws s = h :: tl ->
    Forall (fun t : jsstring => t <> []) tl
    /\ (h = [] -> s = [] \/ starts_with is_ws s = true).
Proof.
  induction s as [|u r IH]; intros Hend h tl Hsplit.
  - injection Hsplit as <- <-. split; [constructor | by left].
  - cbn [split_ws] in Hsplit.
    assert (match last r with Some v => is_ws v = false | None => True end) as Hr.
    { rewrite last_cons in Hend. by destruct (last r). }
    destruct (split_ws_cons r) as (h' & tl' & E).
    destruct (IH Hr h' tl' E) as [Htl' Hh'].
    rewrite E in Hsplit. destruct (is_ws u) eqn:Hu.
    + assert (r <> []) as Hne.
      { intros ->. cbn in Hend. congruence. }
      destruct (starts_with is_ws r) eqn:Hs.
      * injection Hsplit as <- <-. split; [exact Htl' | by right].
      * injection Hsplit as <- <-. split; [|by right].
        constructor; [|exact Htl'].
        intros Hh. destruct (Hh' Hh) as [Hx | Hx]; [by apply Hne | discriminate].
    + injection Hsplit as <- <-. split; [exact Htl' | discriminate].
Qed.

(** X13 — The tokens never hold white space and, put end to end, they are
    the text without its white space.  When the text holds a character
    that is not white space no token is empty; otherwise there is exactly
    one token, the empty one. *)
Theorem tokens_are_words (text : jsstring) :
  Forall (fun t => noWs t = true) (tokenize text)
  /\ concat (tokenize text) = List.filter (fun u => negb (is_ws u)) text
  /\ (if forallb is_ws text
      then tokenize text = [[]]
      else Forall (fun t => isWord t = true) (tokenize text)).
Proof.
  unfold tokenize. split; [apply split_ws_noWs|].
  split; [by rewrite split_ws_concat, trim_filter|].
  destruct (forallb is_ws text) eqn:Hall.
  - assert (trim text = []) as ->; [|reflexivity].
    pose proof (trim_filter text) as Hf.
    assert (List.filter (fun u => negb (is_ws u)) text = []) as Hnil.
    { clear Hf. induction text as [|u r IH]; [reflexivity|].
      cbn [forallb List.filter] in *. apply andb_prop in Hall as [-> Hr].
      cbn [negb]. by apply IH. }
    rewrite Hnil in Hf.
    pose proof (trim_start text) as [H | H]; [exact H|].
    destruct (trim text) as [|x a]; [reflexivity|].
    cbn in H, Hf. rewrite H in Hf. discriminate.
  - destruct (split_ws_cons (trim text)) as (h & tl & E).
    destruct (split_ws_words (trim text) (trim_end text) h tl E) as [Htl Hh].
    pose proof (split_ws_noWs (trim text)) as Hws. rewrite E in *.
    assert (h <> []) as Hne.
    { intros ->. destruct (Hh eq_refl) as [H | H].
      - pose proof (trim_filter text) as Hf. rewrite H in Hf. cbn in Hf.
        clear -Hall Hf. induction text as [|u r IH]; [discriminate|].
        cbn [forallb List.filter] in *. destruct (is_ws u); cbn in *;
          [by apply IH | discriminate].
      - destruct (trim_start text) as [H0 | H0];
          [rewrite H0 in H; discriminate | congruence]. }
    assert (Forall (fun t : jsstring => t <> []) (h :: tl)) as Hall'
      by by constructor.
    clear -Hall' Hws. induction Hall' as [|t ts Ht Hts IH]; [constructor|].
    apply Forall_cons in Hws as [Hw Hws]. constructor; [|by apply IH].
    unfold isWord. by destruct t.
Qed.

(** *** Joining and splitting again *)

Lemma split_ws_app_word (t s : jsstring) :
  noWs t = true ->
  split_ws (t ++ s) =
  match split_ws s with h :: tl => (t ++ h) :: tl | [] => [t] end.
Proof.
  intros Ht. destruct (split_ws_cons s) as (h & tl & E). rewrite E.
  induction t as [|u t IH]; [exact E|].
  unfold noWs in Ht. cbn [forallb] in Ht. apply andb_prop in Ht as [Hu Ht].
  apply negb_true_iff in Hu.
  cbn [app split_ws]. rewrite Hu, (IH Ht). reflexivity.
Qed.

Lemma split_ws_space (s : jsstring) :
  starts_with is_ws s = false -> split_ws (32%N :: s) = [] :: split_ws s.
Proof.
  intros H. cbn [split_ws]. change (is_ws 32) with true. cbv iota.
  by rewrite H.
Qed.

Lemma word_head (t : jsstring) :
  isWord t = true -> exists c rest, t = c :: rest /\ is_ws c = false.
Proof.
  destruct t as [|c rest]; [discriminate|]. unfold isWord, noWs.
  cbn [forallb]. intros H. apply andb_prop in H as [H _].
  apply negb_true_iff in H. eauto.
Qed.

Lemma word_last (t : jsstring) :
  isWord t = true -> exists front c, t = front ++ [c] /\ is_ws c = false.
Proof.
  intros H. destruct t as [|a t] using rev_ind; [discriminate|].
  exists t, a. split; [reflexivity|].
  unfold isWord, noWs in H. destruct (t ++ [a]) eqn:E; [discriminate|].
  rewrite <- E, forallb_app in H. cbn in H.
  apply andb_prop in H as [_ H]. rewrite andb_true_r in H.
  by apply negb_true_iff.
Qed.

Lemma join_sp_cons (t : jsstring) (r : list jsstring) :
  join_sp (t :: r) = match r with [] => t | _ => t ++ ch " " :: join_sp r end.
Proof. destruct r; reflexivity. Qed.

Lemma join_head (ts : list jsstring) :
  ts <> [] -> Forall (fun t => isWord t = true) ts ->
  exists c rest, join_sp ts = c :: rest /\ is_ws c = false.
Proof.
  destruct ts as [|t r]; [congruence|]. intros _ H.
  apply Forall_cons in H as [Ht _].
  destruct (word_head t Ht) as (c & rest & -> & Hc).
  rewrite join_sp_cons. destruct r; cbn [app]; eauto.
Qed.

Lemma join_last (ts : list jsstring) :
  ts <> [] -> Forall (fun t => isWord t = true) ts ->
  exists front c, join_sp ts = front ++ [c] /\ is_ws c = false.
Proof.
  induction ts as [|t r IH]; [congruence|]. intros _ H.
  apply Forall_cons in H as [Ht Hr]. rewrite join_sp_cons.
  destruct r as [|t2 r'].
  - by apply word_last.
  - destruct (IH ltac:(discriminate) Hr) as (front & c & E & Hc).
    rewrite E. exists (t ++ ch " " :: front), c. split; [|exact Hc].
    by rewrite <- app_assoc.
Qed.

Lemma split_join (ts : list jsstring) :
  ts <> [] -> Forall (fun t => isWord t = true) ts ->
  split_ws (join_sp ts) = ts.
Proof.
  induction ts as [|t r IH]; [congruence|]. intros _ H.
  apply Forall_cons in H as [Ht Hr]. rewrite join_sp_cons.
  assert (noWs t = true) as Hw by (unfold isWord in Ht; by destruct t).
  destruct r as [|t2 r'].
  - rewrite <- (app_nil_r t) at 1. rewrite (split_ws_app_word t [] Hw).
    cbn. by rewrite app_nil_r.
  - rewrite (split_ws_app_word _ _ Hw).
    destruct (join_head (t2 :: r') ltac:(discriminate) Hr) as (c & rest & E & Hc).
    specialize (IH ltac:(discriminate) Hr).
    change (ch " ") with 32%N.
    rewrite split_ws_space by (rewrite E; exact Hc).
    rewrite IH. by rewrite app_nil_r.
Qed.

(** X14 — Joining words with single spaces and tokenizing the result gives
    the words back. *)
Theorem tokenize_join (ts : list jsstring) :
  ts <> [] -> Forall (fun t => isWord t = true) ts ->
  tokenize (join_sp ts) = ts.
Proof.
  intros Hne Hws. unfold tokenize.
  assert (trim (join_sp ts) = join_sp ts) as ->; [|by apply split_join].
  destruct (join_head ts Hne Hws) as (c & rest & E & Hc).
  destruct (join_last ts Hne Hws) as (front & e & E' & He).
  unfold trim. rewrite E at 1. cbn [dropWhile]. rewrite Hc, <- E, E'.
  rewrite rev_app_distr. cbn [rev app dropWhile]. rewrite He.
  change (e :: rev front) with ([e] ++ rev front).
  rewrite rev_app_distr, rev_involutive. reflexivity.
Qed.

(** *** Texts that cannot be a sale *)

Lemma numberRegex_no_digit (t : jsstring) :
  Forall (fun u => is_digit u = false) t -> numberRegex_exec t = None.
Proof.
  induction 1 as [|u r Hu Hr IH]; [reflexivity|].
  cbn [numberRegex_exec]. rewrite Hu.
  destruct r as [|v r']; cbn [starts_with]; rewrite ?andb_false_r; [exact IH|].
  apply Forall_cons in Hr as [Hv _]. rewrite Hv, andb_false_r. exact IH.
Qed.

Lemma elem_of_dropWhile {A} (p : A -> bool) (l : list A) (x : A) :
  x ∈ dropWhile p l -> x ∈ l.
Proof.
  induction l as [|y l IH]; cbn [dropWhile]; [done|].
  destruct (p y); [intros H; right; by apply IH | done].
Qed.

Lemma dateRegex_has_slash (t : jsstring) :
  dateRegex_test t = true -> ch "/" ∈ t.
Proof.
  unfold dateRegex_test. intros H. apply andb_prop in H as [_ H].
  destruct (dropWhile is_digit t) as [|u r] eqn:E; [discriminate|].
  apply andb_prop in H as [H _]. apply andb_prop in H as [H _].
  apply N.eqb_eq in H. subst u.
  apply (elem_of_dropWhile is_digit). rewrite E. left.
Qed.

(** X15 — A text without any digit, or without any slash, is never a
    sale. *)
Theorem no_digit_or_no_slash_is_null (text senderName nowIso : jsstring) :
  Forall (fun u => is_digit u = false) text
  \/ Forall (fun u => u <> ch "/") text ->
  parseSalesMessage text senderName nowIso = None.
Proof.
  intros H. unfold parseSalesMessage.
  destruct text as [|u0 text0] eqn:Et; [reflexivity|]. rewrite <- Et in *.
  clear Et. destruct (length (tokenize text) <? 3)%nat; [reflexivity|].
  destruct H as [H | H].
  - assert (findIndex numberRegex_test (tokenize text) = None) as ->; [|reflexivity].
    apply findIndex_None. intros t Ht.
    pose proof (split_ws_Forall _ _ (trim_Forall _ _ H)) as Hall.
    rewrite Forall_forall in Hall. unfold numberRegex_test.
    by rewrite (numberRegex_no_digit t (Hall t Ht)).
  - destruct (findIndex numberRegex_test (tokenize text)); [|reflexivity].
    destruct (numberRegex_exec _); [|reflexivity].
    destruct (isNaN _); [reflexivity|].
    assert (findIndex dateRegex_test (tokenize text) = None) as ->; [|reflexivity].
    apply findIndex_None. intros t Ht.
    pose proof (split_ws_Forall _ _ (trim_Forall _ _ H)) as Hall.
    rewrite Forall_forall in Hall. specialize (Hall t Ht).
    destruct (dateRegex_test t) eqn:E; [|reflexivity].
    apply dateRegex_has_slash in E. rewrite Forall_forall in Hall.
    by destruct (Hall _ E).
Qed.

End ParserMore.

Module ParserMoreWitnesses.
Import JS Bot Notions ParserMore.

Lemma tokenize_join_witness :
  tokenize (join_sp [utf16 "+1"; utf16 "Jane"; utf16 "11/25"])
  = [utf16 "+1"; utf16 "Jane"; utf16 "11/25"].
Proof.
  apply tokenize_join; [discriminate | by repeat constructor].
Defined.

Lemma no_digit_or_no_slash_is_null_witness :
  parseSalesMessage (utf16 "hello team") (utf16 "Bob") Scenario.now = None.
Proof.
  apply no_digit_or_no_slash_is_null. left. by repeat constructor.
Defined.

End ParserMoreWitnesses.

(** ** Messages of the documented shape, and the earlier revisions *)
Module ParserShape.
Import JS JSFacts Bot Notions ParserFacts History.

Lemma findIndex_app {A} (p : A -> bool) (pre l : list A) :
  Forall (fun x => p x = false) pre ->
  findIndex p (pre ++ l) = (fun i => (length pre + i)%nat) <$> findIndex p l.
Proof.
  induction 1 as [|x pre Hx Hpre IH]; cbn [app findIndex length].
  - by destruct (findIndex p l).
  - rewrite Hx, IH. by destruct (findIndex p l).
Qed.

Lemma findIndex_middle {A} (p : A -> bool) (pre l : list A) (x : A) :
  Forall (fun y => p y = false) pre -> p x = true ->
  findIndex p (pre ++ x :: l) = Some (length pre).
Proof.
  intros Hpre Hx. rewrite (findIndex_app p pre _ Hpre). cbn [findIndex].
  rewrite Hx. cbn. f_equal. lia.
Qed.

Lemma lastIndexOf_snoc (x : jsstring) (l : list jsstring) :
  lastIndexOf x (l ++ [x]) = Some (length l).
Proof.
  induction l as [|y l IH]; cbn [app lastIndexOf length].
  - by rewrite (proj2 (str_eqb_eq x x) eq_refl).
  - by rewrite IH.
Qed.

Lemma token_middle (l1 l2 : list jsstring) (x : jsstring) :
  token (l1 ++ x :: l2) (length l1) = x.
Proof. unfold token. by rewrite list_lookup_middle. Qed.

Lemma slice_middle {A} (X Y Z : list A) :
  slice (length X) (length X + length Y) (X ++ Y ++ Z) = Y.
Proof.
  unfold slice. rewrite drop_app_length.
  apply take_app_length'. lia.
Qed.

Ltac list_assoc :=
  repeat (rewrite <- app_assoc || rewrite <- app_comm_cons || cbn [app]);
  reflexivity.

Lemma not_number_not_date (t : jsstring) :
  numberRegex_test t = false -> dateRegex_test t = false.
Proof.
  intros H. destruct (dateRegex_test t) eqn:E; [|reflexivity].
  apply date_is_number in E. congruence.
Qed.

(** X16 — A message of the documented shape is parsed into its parts:
    tokens without a number, then the count token, the words of the
    customer's name (none of them a date), the date token, the words of
    the provider, and last a token matching the speed pattern. *)
Theorem well_formed_message_parses (text senderName nowIso : jsstring)
    (pre names provs : list jsstring) (c m d sp : jsstring) :
  tokenize text = pre ++ c :: names ++ d :: provs ++ [sp] ->
  Forall (fun t => numberRegex_test t = false) pre ->
  numberRegex_exec c = Some m ->
  dateRegex_test c = false ->
  Forall (fun t => dateRegex_test t = false) names ->
  dateRegex_test d = true ->
  speedPattern_test sp = true ->
  parseSalesMessage text senderName nowIso =
  Some {| repName := senderName;
          todayReported := parseInt m;
          customerName := join_sp names;
          installDate := d;
          provider := join_sp provs;
          speed := sp;
          saleDate := before_T nowIso;
          timestamp := nowIso |}.
Proof.
  intros Htok Hpre Hc Hcd Hnames Hd Hsp.
  set (ci := length pre).
  set (di := (length pre + 1 + length names)%nat).
  set (front := pre ++ c :: names ++ d :: provs).
  assert (tokenize text = front ++ [sp]) as Hfront.
  { rewrite Htok. unfold front. list_assoc. }
  assert (tokenize text = (pre ++ c :: names) ++ d :: provs ++ [sp]) as Hdate.
  { rewrite Htok. list_assoc. }
  assert (length (pre ++ c :: names) = di) as Hdi.
  { unfold di. rewrite length_app. cbn [length]. lia. }
  assert (length front = (di + 1 + length provs)%nat) as Hlen.
  { unfold front, di. rewrite !length_app. cbn [length].
    rewrite !length_app. cbn [length]. lia. }
  unfold parseSalesMessage.
  destruct text as [|u0 text0].
  { exfalso. apply (f_equal length) in Hfront.
    rewrite length_app, Hlen in Hfront. cbn in Hfront. lia. }
  remember (tokenize (u0 :: text0)) as tokens eqn:Etok. clear Etok.
  assert ((length tokens <? 3)%nat = false) as ->.
  { apply Nat.ltb_ge. rewrite Hfront, length_app, Hlen. cbn [length]. lia. }
  assert (numberRegex_test c = true) as Hct
    by (unfold numberRegex_test; by rewrite Hc).
  assert (findIndex numberRegex_test tokens = Some ci) as ->
    by (rewrite Htok; by apply findIndex_middle).
  assert (token tokens ci = c) as -> by (rewrite Htok; apply token_middle).
  rewrite Hc, (numberRegex_exec_number _ _ Hc).
  assert (Forall (fun t => dateRegex_test t = false) (pre ++ c :: names)) as Hbefore.
  { apply Forall_app. split.
    - eapply Forall_impl; [exact Hpre|]. apply not_number_not_date.
    - by constructor. }
  assert (findIndex dateRegex_test tokens = Some di) as ->
    by (rewrite Hdate, <- Hdi; by apply findIndex_middle).
  assert ((di <=? ci)%nat = false) as -> by (apply Nat.leb_gt; unfold di, ci; lia).
  assert (token tokens di = d) as ->
    by (rewrite Hdate, <- Hdi; apply token_middle).
  assert (speedToken tokens = sp) as ->.
  { unfold speedToken. rewrite Hfront, length_app. cbn [length].
    replace (length front + 1 - 1)%nat with (length front) by lia.
    by rewrite token_middle, Hsp. }
  assert (lastIndexOf sp tokens = Some (length front)) as ->
    by (rewrite Hfront; apply lastIndexOf_snoc).
  assert ((di <? length front)%nat = true) as ->
    by (apply Nat.ltb_lt; lia).
  assert (slice (ci + 1) di tokens = names) as ->.
  { assert (tokens = (pre ++ [c]) ++ names ++ (d :: provs ++ [sp])) as ->
      by (rewrite Htok; list_assoc).
    replace (ci + 1)%nat with (length (pre ++ [c]))
      by (rewrite length_app; reflexivity).
    replace di with (length (pre ++ [c]) + length names)%nat
      by (unfold di; rewrite length_app; cbn [length]; lia).
    apply slice_middle. }
  assert (slice (di + 1) (length front) tokens = provs) as ->.
  { assert (tokens = (pre ++ c :: names ++ [d]) ++ provs ++ [sp]) as ->
      by (rewrite Htok; list_assoc).
    assert (length (pre ++ c :: names ++ [d]) = (di + 1)%nat) as Hl.
    { unfold di. rewrite length_app. cbn [length]. rewrite length_app.
      cbn [length]. lia. }
    rewrite <- Hl. replace (length front) with
      (length (pre ++ c :: names ++ [d]) + length provs)%nat by lia.
    apply slice_middle. }
  reflexivity.
Qed.

(** X17 — The forgiving parser of the second revision and the current
    parser return the same result on every input. *)
Theorem forgiving_revision_agrees (text senderName nowIso : jsstring) :
  parseSalesMessage_forgiving text senderName nowIso
  = parseSalesMessage text senderName nowIso.
Proof.
  unfold parseSalesMessage_forgiving, parseSalesMessage, speedToken.
  destruct text as [|u0 text0]; [reflexivity|].
  destruct (length _ <? 3)%nat; [reflexivity|].
  destruct (findIndex numberRegex_test _) as [ci|]; [|reflexivity].
  destruct (numberRegex_exec _); [|reflexivity].
  destruct (isNaN _); [reflexivity|].
  destruct (findIndex dateRegex_test _) as [di|]; [|reflexivity].
  rewrite !Nat.add_0_r.
  destruct (di <=? ci)%nat; [reflexivity|].
  destruct (speedPattern_test (token _ (length _ - 1)));
    destruct (2 <=? length _)%nat;
    destruct (speedPattern_test (token _ (length _ - 2)));
    reflexivity.
Qed.

Lemma date_not_speed (t : jsstring) :
  dateRegex_test t = true -> speedPattern_test t = false.
Proof.
  unfold dateRegex_test, speedPattern_test. intros H.
  apply andb_prop in H as [_ H].
  destruct (dropWhile is_digit t) as [|u r] eqn:E; [discriminate|].
  apply andb_prop in H as [H _]. apply andb_prop in H as [H _].
  apply N.eqb_eq in H. subst u.
  destruct (takeWhile is_digit t); [reflexivity|].
  cbv zeta. destruct (existsb _ _) eqn:Hex; [|reflexivity].
  apply existsb_exists in Hex as (x & Hx & Heq).
  apply str_eqb_eq in Heq. subst x.
  vm_compute in Hx. intuition discriminate.
Qed.

Lemma lastIndexOf_last (l : list jsstring) (x : jsstring) :
  l !! (length l - 1)%nat = Some x ->
  lastIndexOf x l = Some (length l - 1)%nat.
Proof.
  destruct l as [|a l] using rev_ind; [discriminate|].
  rewrite length_app. cbn [length].
  replace (length l + 1 - 1)%nat with (length l) by lia.
  rewrite list_lookup_middle by reflexivity. intros [= ->].
  apply lastIndexOf_snoc.
Qed.

(** X18 — A message that the first, strict revision accepted is parsed to
    the same sale by the current parser, when the token 1 is the first
    token with a number, the first date stands after it, and the last
    token matches the speed pattern. *)
Theorem strict_message_parses_the_same (text senderName nowIso : jsstring)
    (ev : SaleEvent) :
  parseSalesMessage_strict text senderName nowIso = Some ev ->
  findIndex numberRegex_test (tokenize text) = Some 1%nat ->
  (forall di, findIndex dateRegex_test (tokenize text) = Some di -> (1 < di)%nat) ->
  speedPattern_test (speed ev) = true ->
  parseSalesMessage text senderName nowIso = Some ev.
Proof.
  unfold parseSalesMessage_strict, parseSalesMessage.
  intros Hstrict Hci Hafter Hspeed.
  destruct text as [|u0 text0]; [discriminate|].
  set (tokens := tokenize (u0 :: text0)) in *.
  destruct (negb (includes _ _)); [discriminate|].
  destruct (length tokens <? 5)%nat eqn:Hlen; [discriminate|].
  apply Nat.ltb_ge in Hlen.
  assert ((length tokens <? 3)%nat = false) as -> by (apply Nat.ltb_ge; lia).
  rewrite Hci.
  destruct (numberRegex_exec (token tokens 1)) as [m|] eqn:Hm; [|discriminate].
  rewrite (numberRegex_exec_number _ _ Hm).
  destruct (findIndex dateRegex_test tokens) as [di|] eqn:Hdi; [|discriminate].
  specialize (Hafter di eq_refl).
  assert ((di <=? 1)%nat = false) as -> by (apply Nat.leb_gt; lia).
  injection Hstrict as <-. cbn [speed] in Hspeed.
  destruct (findIndex_Some _ _ _ Hdi) as [(y & Hy & Hdate) _].
  assert (exists x, tokens !! (length tokens - 1)%nat = Some x) as [x Hx].
  { apply lookup_lt_is_Some. lia. }
  assert (token tokens (length tokens - 1) = x) as Hlast
    by (unfold token; by rewrite Hx).
  rewrite Hlast in *.
  assert (speedToken tokens = x) as ->.
  { unfold speedToken. by rewrite Hlast, Hspeed. }
  rewrite (lastIndexOf_last _ _ Hx).
  assert ((di <? length tokens - 1)%nat = true) as ->.
  { apply Nat.ltb_lt. pose proof (lookup_lt_Some _ _ _ Hy) as Hlt.
    assert (di <> (length tokens - 1)%nat); [|lia].
    intros ->. rewrite Hx in Hy. injection Hy as ->.
    rewrite (date_not_speed _ Hdate) in Hspeed. discriminate. }
  reflexivity.
Qed.

End ParserShape.

Module ParserShapeWitnesses.
Import JS Bot History ParserShape.

Lemma well_formed_message_parses_witness :
  parseSalesMessage (utf16 "🛜 +1 Jane Doe 11/25 Kinetic Fiber 1G")
    (utf16 "Alice") Scenario.now
  = Some {| repName := utf16 "Alice";
            todayReported := parseInt (utf16 "+1");
            customerName := join_sp [utf16 "Jane"; utf16 "Doe"];
            installDate := utf16 "11/25";
            provider := join_sp [utf16 "Kinetic"; utf16 "Fiber"];
            speed := utf16 "1G";
            saleDate := before_T Scenario.now;
            timestamp := Scenario.now |}.
Proof.
  apply (well_formed_message_parses _ _ _ [utf16 "🛜"]
           [utf16 "Jane"; utf16 "Doe"] [utf16 "Kinetic"; utf16 "Fiber"]
           (utf16 "+1") (utf16 "+1") (utf16 "11/25") (utf16 "1G"));
    try reflexivity; by repeat constructor.
Defined.

Lemma strict_message_parses_the_same_witness :
  parseSalesMessage_strict (utf16 "🛜 +1 Jane Doe 11/25 Kinetic 1G")
    (utf16 "Alice") Scenario.now
  = parseSalesMessage (utf16 "🛜 +1 Jane Doe 11/25 Kinetic 1G")
      (utf16 "Alice") Scenario.now.
Proof.
  destruct (parseSalesMessage_strict (utf16 "🛜 +1 Jane Doe 11/25 Kinetic 1G")
              (utf16 "Alice") Scenario.now) as [ev|] eqn:E; [|discriminate E].
  symmetry.
  apply (strict_message_parses_the_same _ _ _ ev E); [reflexivity | |].
  - intros di Hdi. vm_compute in Hdi. injection Hdi as <-. lia.
  - vm_compute in E. injection E as <-. reflexivity.
Defined.

End ParserShapeWitnesses.
